(** * The OVH Ansible module: reconciliation and polling engine

    A shallow embedding of [plugins/modules/ovh.py].  Every method of
    [OVHModule] becomes a computation in a small monad that threads the
    state of the remote API, records each gateway call, sleep and display in
    order, and may raise a Python exception.  The OVH client (the gateway) is
    an arbitrary deterministic function of a remote state. *)

From Stdlib Require Import String Ascii List ZArith Bool Lia DecimalString.
Import ListNotations.
Local Open Scope string_scope.
Set Warnings "-register-all".

(** ** Python values *)

(** The JSON-shaped values the OVH client returns and the module handles. *)
Inductive value : Type :=
| VNone
| VBool (b : bool)
| VInt (z : Z)
| VStr (s : string)
| VList (l : list value)
| VDict (d : list (string * value)).

(** Exceptions.  [APIError true _] stands for [ResourceNotFoundError], a
    subclass of [APIError]; the string is [str(api_error)]. *)
Inductive exn : Type :=
| APIError (not_found : bool) (msg : string)
| KeyError
| TypeError
| ValueError
| IndexError
| AttributeError
| UnboundLocalError
| IOError
| OverflowError.

Inductive res (A : Type) : Type :=
| Ok (a : A)
| Raise (e : exn).
Arguments Ok {A} a.
Arguments Raise {A} e.

Definition truthy_str (o : option string) : bool :=
  match o with
  | Some s => negb (s =? EmptyString)
  | None => false
  end.

Definition truthy (v : value) : bool :=
  match v with
  | VNone => false
  | VBool b => b
  | VInt z => negb (z =? 0)%Z
  | VStr s => negb (s =? EmptyString)
  | VList l => match l with [] => false | _ => true end
  | VDict d => match d with [] => false | _ => true end
  end.

Definition str_of_Z (z : Z) : string := NilZero.string_of_int (Z.to_int z).

(** [str(None)] is ["None"]: what [%s] and [{}] print for an unset parameter. *)
Definition fmt (o : option string) : string :=
  match o with
  | Some s => s
  | None => "None"
  end.

(** [s] between two double quotes. *)
Definition quoted (s : string) : string :=
  String (ascii_of_nat 34) (s ++ String (ascii_of_nat 34) EmptyString).

Fixpoint join (sep : string) (l : list string) : string :=
  match l with
  | [] => EmptyString
  | [x] => x
  | x :: r => x ++ sep ++ join sep r
  end.

(** [str(v)] as [%s] and [{}] print it.  Inside containers Python prints the
    [repr] of a string; it is rendered here with single quotes and without
    escapes, which only matters for the text of a message. *)
Fixpoint py_repr (v : value) : string :=
  match v with
  | VNone => "None"
  | VBool b => if b then "True" else "False"
  | VInt z => str_of_Z z
  | VStr s => "'" ++ s ++ "'"
  | VList l => "[" ++ join ", " (map py_repr l) ++ "]"
  | VDict d =>
      "{" ++ join ", " (map (fun kv => "'" ++ fst kv ++ "': " ++ py_repr (snd kv)) d) ++ "}"
  end.

Definition py_str (v : value) : string :=
  match v with
  | VStr s => s
  | _ => py_repr v
  end.

Fixpoint lookup (k : string) (d : list (string * value)) : option value :=
  match d with
  | [] => None
  | (k', v) :: r => if k' =? k then Some v else lookup k r
  end.

(** [s in t] for two strings. *)
Fixpoint substring_of (s t : string) : bool :=
  prefix s t ||
  match t with
  | EmptyString => false
  | String _ r => substring_of s r
  end.

Fixpoint chars (s : string) : list value :=
  match s with
  | EmptyString => []
  | String c r => VStr (String c EmptyString) :: chars r
  end.

(** [v == s] for a Python string [s]. *)
Definition py_eq_str (v : value) (s : string) : bool :=
  match v with
  | VStr t => t =? s
  | _ => false
  end.

(** [v == z] for an int; [bool] is a subclass of [int]. *)
Definition py_eq_int (v : value) (z : Z) : bool :=
  match v with
  | VInt y => (y =? z)%Z
  | VBool b => ((if b then 1 else 0) =? z)%Z
  | _ => false
  end.

Definition py_eq_bool (v : value) (b : bool) : bool :=
  py_eq_int v (if b then 1 else 0)%Z.

(** [len(v)] *)
Definition py_len (v : value) : res nat :=
  match v with
  | VList l => Ok (List.length l)
  | VDict d => Ok (List.length d)
  | VStr s => Ok (String.length s)
  | _ => Raise TypeError
  end.

(** The elements a [for] loop over [v] visits. *)
Definition py_iter (v : value) : res (list value) :=
  match v with
  | VList l => Ok l
  | VDict d => Ok (map (fun kv => VStr (fst kv)) d)
  | VStr s => Ok (chars s)
  | _ => Raise TypeError
  end.

(** [v[k]] for a string key. *)
Definition py_getitem (v : value) (k : string) : res value :=
  match v with
  | VDict d => match lookup k d with Some x => Ok x | None => Raise KeyError end
  | _ => Raise TypeError
  end.

(** [v[0]] *)
Definition py_first (v : value) : res value :=
  match v with
  | VList l => match l with x :: _ => Ok x | [] => Raise IndexError end
  | VStr s => match chars s with x :: _ => Ok x | [] => Raise IndexError end
  | VDict _ => Raise KeyError
  | _ => Raise TypeError
  end.

(** [v.get(k)] *)
Definition py_get (v : value) (k : string) : res value :=
  match v with
  | VDict d => match lookup k d with Some x => Ok x | None => Ok VNone end
  | _ => Raise AttributeError
  end.

(** [s in v] for a Python string [s]. *)
Definition py_contains (v : value) (s : string) : res bool :=
  match v with
  | VList l => Ok (existsb (fun x => py_eq_str x s) l)
  | VDict d => Ok (existsb (fun kv => fst kv =? s) d)
  | VStr t => Ok (substring_of s t)
  | _ => Raise TypeError
  end.

Definition rbind {A B} (r : res A) (k : A -> res B) : res B :=
  match r with
  | Ok a => k a
  | Raise e => Raise e
  end.

Notation "'do' x <- r ; k" := (rbind r (fun x => k))
  (at level 10, x name, r at level 100, k at level 200).

(** [v.keys()] *)
Definition py_keys (v : value) : res (list string) :=
  match v with
  | VDict d => Ok (map fst d)
  | _ => Raise AttributeError
  end.

Definition all_int (l : list value) : option (list Z) :=
  fold_right (fun v acc =>
                match v, acc with
                | VInt z, Some zs => Some (z :: zs)
                | _, _ => None
                end) (Some []) l.

Definition all_str (l : list value) : option (list string) :=
  fold_right (fun v acc =>
                match v, acc with
                | VStr s, Some ss => Some (s :: ss)
                | _, _ => None
                end) (Some []) l.

Definition str_max (a b : string) : string := if String.ltb a b then b else a.

(** [max(v)]: of the ints or of the strings of an iterable; of a single
    element, that element.  Other mixtures are taken as a [TypeError]. *)
Definition py_max (v : value) : res value :=
  do l <- py_iter v;
  match l with
  | [] => Raise ValueError
  | [x] => Ok x
  | _ :: _ =>
      match all_int l, all_str l with
      | Some (z :: zs), _ => Ok (VInt (fold_left Z.max zs z))
      | _, Some (t :: ts) => Ok (VStr (fold_left str_max ts t))
      | _, _ => Raise TypeError
      end
  end.

(** [sep.join(v)] with the empty separator. *)
Definition py_join (v : value) : res string :=
  do l <- py_iter v;
  match all_str l with
  | Some ss => Ok (String.concat EmptyString ss)
  | None => Raise TypeError
  end.

Definition hashable (v : value) : bool :=
  match v with
  | VList _ | VDict _ => false
  | _ => true
  end.

(** [set([tpl for template_type in d.keys() for tpl in d[template_type]])] *)
Fixpoint template_names (d : list (string * value)) (keys : list string) : res (list value) :=
  match keys with
  | [] => Ok []
  | k :: r =>
      do group <- py_getitem (VDict d) k;
      do tpls <- py_iter group;
      do more <- template_names d r;
      Ok (tpls ++ more)%list
  end.

Definition py_set (l : list value) : res (list value) :=
  if forallb hashable l then Ok l else Raise TypeError.

(** The [for progress in progress_status['progress']] loop of the status
    poll: the comment of the last entry that is being done. *)
Fixpoint progress_message (l : list value) (message : value) : res value :=
  match l with
  | [] => Ok message
  | progress :: r =>
      do st <- py_getitem progress "status";
      if py_eq_str st "doing"
      then do c <- py_getitem progress "comment"; progress_message r c
      else progress_message r message
  end.

Definition not_installing : string :=
  "Server is not being installed or reinstalled at the moment".

(** The message the status poll shows for a progress report: the report's
    own message when the server is not being installed, else the comment of
    the step being done. *)
Definition install_message (progress_status : value) : res value :=
  do has_message <- py_contains progress_status "message";
  do idle <- (if has_message
              then do m <- py_getitem progress_status "message";
                   Ok (py_eq_str m not_installing)
              else Ok false);
  if idle
  then py_getitem progress_status "message"
  else do steps <- py_getitem progress_status "progress";
       do l <- py_iter steps;
       progress_message l (VStr EmptyString).

Definition last_opt {A} (l : list A) : option A :=
  match rev l with
  | [] => None
  | x :: _ => Some x
  end.

(** [record.get('subDomain') == name and record.get('target') == ip] *)
Definition record_is (record : value) (nm ipaddr : string) : res bool :=
  do sub <- py_get record "subDomain";
  if py_eq_str sub nm
  then do tgt <- py_get record "target"; Ok (py_eq_str tgt ipaddr)
  else Ok false.

(** [float(z)] of an int: the nearest double, a tie going to the even
    significand; an int that rounds past the largest double raises
    [OverflowError].  The double nearest to an int is itself a whole number,
    and is held as that number: 53 significant bits, then zeros. *)
Definition py_float (z : Z) : res Z :=
  let a := Z.abs z in
  if (a <? 2 ^ 53)%Z then Ok z
  else
    let e := (Z.log2 a - 52)%Z in
    let q := Z.shiftr a e in
    let r := Z.land a (Z.ones e) in
    let half := (2 ^ (e - 1))%Z in
    let q' := if (half <? r)%Z || ((r =? half)%Z && Z.odd q) then (q + 1)%Z else q in
    let f := (q' * 2 ^ e)%Z in
    if (2 ^ 1024 <=? f)%Z then Raise OverflowError else Ok (Z.sgn z * f)%Z.

Definition bootid : list (string * Z) := [("harddisk", 1%Z); ("rescue", 1122%Z)].

Fixpoint bootid_of (b : string) (d : list (string * Z)) : res Z :=
  match d with
  | [] => Raise KeyError
  | (k, z) :: r => if k =? b then Ok z else bootid_of b r
  end.

(** ** Gateway, events and the monad *)

Inductive method : Type := GET | POST | PUT | DELETE.

Inductive event : Type :=
| Call (m : method) (path : string) (kwargs : list (string * value))
| Sleep (seconds : Z)
| Display (text : string).

Definition mutating (e : event) : bool :=
  match e with
  | Call GET _ _ => false
  | Call _ _ _ => true
  | _ => false
  end.

Definition is_sleep (e : event) : bool :=
  match e with
  | Sleep _ => true
  | _ => false
  end.

Record api_error : Type := { not_found : bool; text : string }.

(** The OVH client over a remote state [W]: each call answers with data or
    with an [APIError], and moves the remote state. *)
Definition gateway (W : Type) : Type :=
  method -> string -> list (string * value) -> W -> (value + api_error) * W.

(** Error, changed, result: what [run] hands to [main]. *)
Definition outcome : Type := (option string * bool * list (string * value))%type.

Definition fail (message : string) : outcome := (Some message, false, []).

Definition succeed (message : value) (changed : bool) (contents objects : value) : outcome :=
  (None, changed,
   ((match message with VNone => [] | _ => [("msg", message)] end) ++
    (match contents with VNone => [] | _ => [("contents", contents)] end) ++
    (match objects with VNone => [] | _ => [("objects", objects)] end))%list).

Definition succeed_msg (message : string) (changed : bool) : outcome :=
  succeed (VStr message) changed VNone VNone.

Definition changed_of (o : outcome) : bool := snd (fst o).
Definition error_of (o : outcome) : option string := fst (fst o).

(** [self.params].  [name] is required and so always a string; a parameter
    that defaults to [None] is an [option]; [max_retry] and [sleep] are held
    as the integers that [int(...)] makes of them, and [time.sleep] is given
    [float(sleep)]. *)
Record params : Type := {
  name : string;
  state : string;
  service : string;
  domain : option string;
  ip : option string;
  vrack : option string;
  boot : string;
  force_reboot : bool;
  template : option string;
  post_installation_script_link : option string;
  hostname : option string;
  max_retry : Z;
  sleep : Z;
  ssh_key_name : option string;
  use_distrib_kernel : bool;
  link_type : string
}.

Record OVHModule : Type := {
  check_mode : bool;
  self_params : params
}.

(** [range(1, n)] *)
Definition range1 (n : Z) : list Z :=
  map (fun k => Z.of_nat (S k)) (seq 0 (Z.to_nat (n - 1))).

Section Engine.

Variable W : Type.
Variable gw : gateway W.

(** [yaml.load(open(src))]: the parsed content of the template file, or the
    exception that reading it raises. *)
Variable yaml_load : string -> res value.

(** [ast.literal_eval] *)
Variable literal_eval : value -> res value.

(** A computation: from a remote state to a result, the next remote state
    and the events it emitted, oldest first. *)
Definition M (A : Type) : Type := W -> res A * W * list event.

Definition ret {A} (a : A) : M A := fun w => (Ok a, w, []).

Definition raise {A} (e : exn) : M A := fun w => (Raise e, w, []).

Definition lift {A} (r : res A) : M A := fun w => (r, w, []).

(** The run [x], after the events [e1]. *)
Definition emit {A} (e1 : list event) (x : res A * W * list event) : res A * W * list event :=
  match x with
  | (r, w2, e2) => (r, w2, (e1 ++ e2)%list)
  end.

Definition bind {A B} (m : M A) (k : A -> M B) : M B := fun w =>
  match m w with
  | (Ok a, w1, e1) => emit e1 (k a w1)
  | (Raise e, w1, e1) => (Raise e, w1, e1)
  end.

Notation "x <- m ;; k" := (bind m (fun x => k))
  (at level 61, m at next level, right associativity).
Notation "m ;;; k" := (bind m (fun _ => k))
  (at level 61, right associativity).

(** [try: body except APIError as api_error: handler] *)
Definition except_APIError {A} (body : M A) (handler : string -> M A) : M A := fun w =>
  match body w with
  | (Raise (APIError _ msg), w1, e1) => emit e1 (handler msg w1)
  | other => other
  end.

Definition client (m : method) (path : string) (kwargs : list (string * value)) : M value :=
  fun w =>
    match gw m path kwargs w with
    | (inl v, w1) => (Ok v, w1, [Call m path kwargs])
    | (inr err, w1) => (Raise (APIError (not_found err) (text err)), w1, [Call m path kwargs])
    end.

(** [time.sleep(float(seconds))]: the conversion comes first, and a negative
    delay is a [ValueError].  The event holds the delay [time.sleep] is given. *)
Definition time_sleep (seconds : Z) : M unit :=
  secs <- lift (py_float seconds) ;;
  if (secs <? 0)%Z then raise ValueError
  else fun w => (Ok tt, w, [Sleep secs]).

Definition display (t : string) : M unit := fun w => (Ok tt, w, [Display t]).

Definition api_failure (msg : string) : outcome :=
  fail ("Failed to call OVH API: " ++ msg).

(** The recurring shape
    [try: body except APIError as api_error: return self.fail(...)]
    followed by the rest of the method. *)
Definition attempt {A} (body : M A) (rest : A -> M outcome) : M outcome :=
  r <- except_APIError (a <- body ;; ret (inl a)) (fun msg => ret (inr (api_failure msg))) ;;
  match r with
  | inl a => rest a
  | inr o => ret o
  end.

(** The same shape when the [try] body itself ends the method. *)
Definition guarded (body : M outcome) : M outcome :=
  except_APIError body (fun msg => ret (api_failure msg)).

(** [try: body except ovh.exceptions.ResourceNotFoundError: handler] *)
Definition except_ResourceNotFoundError {A} (body : M A) (handler : M A) : M A := fun w =>
  match body w with
  | (Raise (APIError true _), w1, e1) => emit e1 (handler w1)
  | other => other
  end.

(** *** change_dns *)

Definition record_path (dom : string) (ind : value) : string :=
  "/domain/zone/" ++ dom ++ "/record/" ++ py_str ind.

(** The [for ind in existing_records] loop of the present branch: [Some]
    is a [return] from inside the loop. *)
Fixpoint dns_scan (dom nm ipaddr : string) (ids : list value) : M (option outcome) :=
  match ids with
  | [] => ret None
  | ind :: rest =>
      r <- except_APIError
             (record <- client GET (record_path dom ind) [] ;;
              current <- lift (record_is record nm ipaddr) ;;
              if current
              then ret (Some (succeed_msg (nm ++ " is already registered in domain " ++ dom)
                                false))
              else ret None)
             (fun msg => ret (Some (api_failure msg))) ;;
      match r with
      | Some o => ret (Some o)
      | None => dns_scan dom nm ipaddr rest
      end
  end.

(** The [for ind in existing_records] loop of the absent branch. *)
Fixpoint dns_delete_each (dom : string) (ids : list value) (record_deleted : list string)
  : M (list string) :=
  match ids with
  | [] => ret record_deleted
  | ind :: rest =>
      record <- client GET (record_path dom ind) [] ;;
      client DELETE (record_path dom ind) [] ;;;
      sub <- lift (py_get record "subDomain") ;;
      tgt <- lift (py_get record "target") ;;
      dns_delete_each dom rest (app record_deleted [py_str sub ++ " IN A " ++ py_str tgt])
  end.

Definition ambiguity_message (nm dom : string) : string :=
  "More than one record match the name " ++ nm ++ " in domain " ++ dom ++
  ", this module won't update all of these records.".

Definition change_dns (self : OVHModule) : M outcome :=
  let p := self_params self in
  let nm := name p in
  if negb (truthy_str (domain p)) then ret (fail "Please give a domain to add your target") else
  let dom := fmt (domain p) in
  if nm =? "refresh" then
    if check_mode self then
      ret (succeed_msg ("Domain " ++ dom ++ " succesfully refreshed! - (dry run mode)") true)
    else
      guarded (client POST ("/domain/zone/" ++ dom ++ "/refresh") [] ;;;
               ret (succeed_msg ("Domain " ++ dom ++ " succesfully refreshed !") true))
  else
  if check_mode self then
    ret (succeed_msg ("DNS succesfully " ++ state p ++ " on " ++ nm ++ "s - (dry run mode)") true)
  else
  attempt (client GET ("/domain/zone/" ++ dom ++ "/record")
             [("fieldType", VStr "A"); ("subDomain", VStr nm)])
  (fun existing_records =>
  if state p =? "present" then
    if negb (truthy_str (ip p)) then ret (fail "Please give an IP to add your target") else
    let ipaddr := fmt (ip p) in
    if truthy existing_records then
      ids <- lift (py_iter existing_records) ;;
      r <- dns_scan dom nm ipaddr ids ;;
      match r with
      | Some o => ret o
      | None =>
          n <- lift (py_len existing_records) ;;
          if (1 <? n)%nat then ret (fail (ambiguity_message nm dom)) else
          guarded (ind <- lift (py_first existing_records) ;;
                   client PUT (record_path dom ind)
                     [("subDomain", VStr nm); ("target", VStr ipaddr)] ;;;
                   ret (succeed_msg
                          ("{ " ++ quoted "fieldType" ++ ": " ++ quoted "A" ++
                           ", " ++ quoted "id" ++ ": " ++ quoted (py_str ind) ++
                           ", " ++ quoted "subDomain" ++ ": " ++ quoted nm ++
                           ", " ++ quoted "target" ++ ": " ++ quoted ipaddr ++
                           ", " ++ quoted "zone" ++ ": " ++ quoted dom ++ " } ") true))
      end
    else
      guarded (result <- client POST ("/domain/zone/" ++ dom ++ "/record")
                 [("fieldType", VStr "A"); ("subDomain", VStr nm); ("target", VStr ipaddr)] ;;
               ret (succeed VNone true result VNone))
  else if state p =? "absent" then
    if negb (truthy existing_records) then
      ret (succeed_msg ("Target " ++ nm ++ " doesn't exist on domain " ++ dom) false)
    else
      guarded (ids <- lift (py_iter existing_records) ;;
               record_deleted <- dns_delete_each dom ids [] ;;
               ret (succeed_msg (join "," record_deleted ++
                                 " successfuly deleted from domain " ++ dom) true))
  else
    (* the method falls off its end and returns None, which [main] cannot unpack *)
    raise TypeError).

(** *** get_mac *)

Definition get_mac (self : OVHModule) : M outcome :=
  let p := self_params self in
  result <- client GET ("/dedicated/server/" ++ name p ++
                        "/networkInterfaceController?linkType=" ++ link_type p) [] ;;
  ret (succeed result false VNone VNone).

(** *** terminate_server *)

Definition terminate_server (self : OVHModule) : M outcome :=
  let nm := name (self_params self) in
  if nm =? EmptyString then ret (fail "Please give a dedicated name to terminate") else
  if check_mode self then
    ret (succeed_msg ("Terminate " ++ nm ++
                      " is done, please confirm via the email sent - (dry run mode)") true)
  else
    guarded (client POST ("/dedicated/server/" ++ nm ++ "/terminate") [] ;;;
             ret (succeed_msg ("Terminate " ++ nm ++
                               " is done, please confirm via the email sent") true)).

(** *** get_status_install *)

(** The body of [for i in range(1, int(max_retry))]: [Some] is a [return]
    from inside the loop, [None] is the loop running out. *)
Fixpoint status_loop (nm : string) (retries seconds : Z) (attempts : list Z)
  : M (option outcome) :=
  match attempts with
  | [] => ret None
  | i :: rest =>
      display (str_of_Z i ++ " out of " ++ str_of_Z retries) ;;;
      r <- except_APIError
             (tasklist <- client GET ("/dedicated/server/" ++ nm ++ "/task")
                            [("function", VStr "reinstallServer")] ;;
              newest <- lift (py_max tasklist) ;;
              result <- client GET ("/dedicated/server/" ++ nm ++ "/task/" ++ py_str newest) [] ;;
              ret (inl result))
             (fun msg => ret (inr (api_failure msg))) ;;
      match r with
      | inr o => ret (Some o)
      | inl result =>
          status <- lift (py_getitem result "status") ;;
          done <- lift (py_contains status "done") ;;
          if done then
            ret (Some (succeed_msg (py_str status ++ ": " ++ EmptyString) false))
          else
            progress_status <- client GET ("/dedicated/server/" ++ nm ++ "/install/status") [] ;;
            message <- lift (install_message progress_status) ;;
            display (py_str status ++ ": " ++ py_str message) ;;;
            time_sleep seconds ;;;
            status_loop nm retries seconds rest
      end
  end.

Definition exhausted_message (i seconds : Z) : string :=
  "Max wait time reached, about " ++ str_of_Z i ++ " x " ++ str_of_Z seconds ++ " seconds".

Definition get_status_install (self : OVHModule) : M outcome :=
  let p := self_params self in
  let nm := name p in
  if nm =? EmptyString then
    ret (fail "Please provide 'ns' server name from which installation status will be check")
  else
  if check_mode self then ret (succeed_msg "done - (dry run mode)" false) else
  r <- status_loop nm (max_retry p) (sleep p) (range1 (max_retry p)) ;;
  match r with
  | Some o => ret o
  | None =>
      (* [i] is the last value the loop gave it, and unbound if it gave none *)
      match last_opt (range1 (max_retry p)) with
      | Some i => ret (fail (exhausted_message i (sleep p)))
      | None => raise UnboundLocalError
      end
  end.

(** *** launch_install *)

Definition install_details (p : params) (with_ssh_key : bool) : list (string * value) :=
  [("details",
    VDict ([("language", VStr "en"); ("customHostname", VStr (fmt (hostname p)))] ++
           (if with_ssh_key then [("sshKeyName", VStr (fmt (ssh_key_name p)))] else []) ++
           (if use_distrib_kernel p then [("useDistribKernel", VBool true)] else []) ++
           (if truthy_str (post_installation_script_link p)
            then [("postInstallationScriptLink", VStr (fmt (post_installation_script_link p)))]
            else []))%list);
   ("templateName", VStr (fmt (template p)))].

Definition launch_install (self : OVHModule) : M outcome :=
  let p := self_params self in
  let nm := name p in
  if nm =? EmptyString then ret (fail "Please give the service's name you want to install") else
  if negb (truthy_str (template p)) then ret (fail "Please give a template to install") else
  if negb (truthy_str (hostname p)) then
    ret (fail "Please give a hostname for your installation")
  else
  let tpl := fmt (template p) in
  attempt (compatible_templates <-
             client GET ("/dedicated/server/" ++ nm ++ "/install/compatibleTemplates") [] ;;
           keys <- lift (py_keys compatible_templates) ;;
           names <- lift (match compatible_templates with
                          | VDict d => do l <- template_names d keys; py_set l
                          | _ => Raise AttributeError
                          end) ;;
           ret (existsb (fun x => py_eq_str x tpl) names))
  (fun compatible =>
  if negb compatible then ret (fail (tpl ++ " doesn't exist in compatibles templates")) else
  if check_mode self then
    ret (succeed_msg ("Installation in progress on " ++ nm ++ " ! - (dry run mode)") true)
  else
  let start (with_ssh_key : bool) : M outcome :=
    guarded (client POST ("/dedicated/server/" ++ nm ++ "/install/start")
               (install_details p with_ssh_key) ;;;
             ret (succeed_msg ("Installation in progress on " ++ nm ++ " !") true)) in
  if truthy_str (ssh_key_name p) then
    attempt (result <- client GET "/me/sshKey" [] ;;
             lift (py_contains result (fmt (ssh_key_name p))))
      (fun known =>
         if negb known
         then ret (fail (fmt (ssh_key_name p) ++ " doesn't exist in public SSH keys"))
         else start true)
  else start false).

(** *** change_monitoring *)

Definition monitoring_message (shouldbe : bool) (nm : string) (i : Z) : string :=
  (if shouldbe then "Monitoring activated on " else "Monitoring deactivated on ") ++
  nm ++ " after " ++ str_of_Z i ++ " time(s)".

Fixpoint monitoring_loop (nm : string) (shouldbe : bool) (seconds : Z) (attempts : list Z)
  : M (option outcome) :=
  match attempts with
  | [] => ret None
  | i :: rest =>
      server_state <- client GET ("/dedicated/server/" ++ nm) [] ;;
      flag <- lift (py_getitem server_state "monitoring") ;;
      if py_eq_bool flag shouldbe then
        ret (Some (succeed_msg (monitoring_message shouldbe nm i) true))
      else
        r <- except_APIError
               (client PUT ("/dedicated/server/" ++ nm) [("monitoring", VBool shouldbe)] ;;;
                ret None)
               (fun msg => ret (Some (api_failure msg))) ;;
        match r with
        | Some o => ret (Some o)
        | None => time_sleep seconds ;;; monitoring_loop nm shouldbe seconds rest
        end
  end.

Definition change_monitoring (self : OVHModule) : M outcome :=
  let p := self_params self in
  let nm := name p in
  if nm =? EmptyString then ret (fail "Please give a name to change monitoring state") else
  if state p =? EmptyString then ret (fail "Please give a state for your monitoring") else
  if negb ((state p =? "present") || (state p =? "absent")) then
    ret (fail ("State " ++ state p ++ " does not match 'present' or 'absent'"))
  else
  let shouldbe := state p =? "present" in
  if check_mode self then
    ret (succeed_msg ("Monitoring " ++ state p ++ " on " ++ nm ++ " - (dry run mode)") true)
  else
  r <- monitoring_loop nm shouldbe (sleep p) (range1 (max_retry p)) ;;
  match r with
  | Some o => ret o
  | None => ret (fail "Could not change monitoring flag")
  end.

(** *** change_reverse *)

Definition change_reverse (self : OVHModule) : M outcome :=
  let p := self_params self in
  if negb (truthy_str (domain p)) then ret (fail "Please give a domain to add your target") else
  if negb (truthy_str (ip p)) then ret (fail "Please give an IP to add your target") else
  let ipaddr := fmt (ip p) in
  let fqdn := name p ++ "." ++ fmt (domain p) ++ "." in
  result <- except_ResourceNotFoundError
              (client GET ("/ip/" ++ ipaddr ++ "/reverse/" ++ ipaddr) [])
              (ret (VDict [("reverse", VStr EmptyString)])) ;;
  reverse <- lift (py_getitem result "reverse") ;;
  if py_eq_str reverse fqdn then ret (succeed_msg "Reverse already set" false) else
  if check_mode self then
    ret (succeed_msg ("Reverse " ++ ipaddr ++ " to " ++ fqdn ++
                      " succesfully set ! - (dry run mode)") true)
  else
    guarded (client POST ("/ip/" ++ ipaddr ++ "/reverse")
               [("ipReverse", VStr ipaddr); ("reverse", VStr fqdn)] ;;;
             ret (succeed_msg ("Reverse " ++ ipaddr ++ " to " ++ fqdn ++
                               " succesfully set !") true)).

(** *** list_service *)

Fixpoint dedicated_each (l : list value) (customlist : list value) : M (list value) :=
  match l with
  | [] => ret customlist
  | i :: rest =>
      test <- client GET ("/dedicated/server/" ++ py_str i) [] ;;
      reverse <- lift (py_getitem test "reverse") ;;
      dedicated_each rest (customlist ++ [VStr (py_str reverse ++ "=" ++ py_str i)])%list
  end.

Definition list_dedicated : M outcome :=
  attempt (client GET "/dedicated/server" [])
  (fun result =>
     guarded (l <- lift (py_iter result) ;;
              customlist <- dedicated_each l [] ;;
              ret (succeed VNone false VNone (VList customlist)))).

Fixpoint templates_each (l : list value) (customlist : list value) : res (list value) :=
  match l with
  | [] => Ok customlist
  | i :: rest =>
      do tmp <- py_contains i "tmp-mgr";
      templates_each rest (if tmp then customlist else (customlist ++ [i])%list)
  end.

Definition list_templates : M outcome :=
  attempt (client GET "/me/installationTemplate" [])
  (fun result =>
     l <- lift (py_iter result) ;;
     customlist <- lift (templates_each l []) ;;
     ret (succeed VNone false VNone (VList customlist))).

Definition list_service (self : OVHModule) : M outcome :=
  let nm := name (self_params self) in
  if nm =? "dedicated" then list_dedicated
  else if nm =? "templates" then list_templates
  else ret (fail (nm ++ " not supported for 'list' service")).

(** *** change_boot_dedicated *)

Definition change_boot_dedicated (self : OVHModule) : M outcome :=
  let p := self_params self in
  let nm := name p in
  if check_mode self then
    ret (succeed_msg (nm ++ " is now set to boot on " ++ boot p ++
                      ". Reboot in progress... - (dry run mode)") true)
  else
  attempt (client GET ("/dedicated/server/" ++ nm) [])
  (fun check =>
     wanted <- lift (bootid_of (boot p) bootid) ;;
     current <- lift (py_getitem check "bootId") ;;
     if negb (py_eq_int current wanted) then
       attempt (client PUT ("/dedicated/server/" ++ nm) [("bootId", VInt wanted)])
         (fun _ => ret (succeed_msg (nm ++ " is now set to boot on " ++ boot p ++ ".") true))
     else if force_reboot p then
       attempt (client POST ("/dedicated/server/" ++ nm ++ "/reboot") [])
         (fun _ => ret (succeed_msg (nm ++ " is now rebooting on " ++ boot p) true))
     else
       ret (succeed_msg (nm ++ " already configured for boot on " ++ boot p) false)).

(** *** generate_template *)

Definition conf_get (conf : list (string * value)) (k : string) : res value :=
  py_getitem (VDict conf) k.

Definition partition_path (conf : list (string * value)) : res string :=
  do t <- conf_get conf "templateName";
  do s <- conf_get conf "partitionScheme";
  Ok ("/me/installationTemplate/" ++ py_str t ++ "/partitionScheme/" ++ py_str s ++ "/partition").

Definition hardware_raid_path (conf : list (string * value)) : res string :=
  do t <- conf_get conf "templateName";
  do s <- conf_get conf "partitionScheme";
  Ok ("/me/installationTemplate/" ++ py_str t ++ "/partitionScheme/" ++ py_str s ++
      "/hardwareRaid").

Definition partition_kwargs (partition : value) (with_raid : bool)
  : res (list (string * value)) :=
  do filesystem <- py_getitem partition "filesystem";
  do mountpoint <- py_getitem partition "mountpoint";
  do raid <- (if with_raid then py_getitem partition "raid" else Ok VNone);
  do size <- py_getitem partition "size";
  do step <- py_getitem partition "step";
  do type <- py_getitem partition "type";
  Ok ([("filesystem", filesystem); ("mountpoint", mountpoint)] ++
      (if with_raid then [("raid", raid)] else []) ++
      [("size", size); ("step", step); ("type", type)])%list.

(** The [for k in conf['partition']] loop. *)
Fixpoint partition_each (conf : list (string * value)) (l : list value) : M (option outcome) :=
  match l with
  | [] => ret None
  | k :: rest =>
      partition <- lift (literal_eval k) ;;
      r <- except_APIError
             (keys <- lift (py_keys partition) ;;
              path <- lift (partition_path conf) ;;
              kwargs <- lift (partition_kwargs partition (existsb (String.eqb "raid") keys)) ;;
              client POST path kwargs ;;;
              ret None)
             (fun msg => ret (Some (api_failure msg))) ;;
      match r with
      | Some o => ret (Some o)
      | None => partition_each conf rest
      end
  end.

(** [result['controllers'][0]['disks'][0]['names']] *)
Definition raid_disks (result : value) : res value :=
  do controllers <- py_getitem result "controllers";
  do controller <- py_first controllers;
  do groups <- py_getitem controller "disks";
  do group <- py_first groups;
  py_getitem group "names".

Definition controllers_message : string :=
  "Failed to call OVH API: {0} Code can't handle more than one controller when using Hardware Raid setups".

(** Steps (5) and (6): the partitions and the integrity check. *)
Definition template_partitions (conf : list (string * value)) : M outcome :=
  partitions <- lift (conf_get conf "partition") ;;
  l <- lift (py_iter partitions) ;;
  r <- partition_each conf l ;;
  match r with
  | Some o => ret o
  | None =>
      attempt (t <- lift (conf_get conf "templateName") ;;
               client POST ("/me/installationTemplate/" ++ py_str t ++ "/checkIntegrity") [])
        (fun _ =>
           t <- lift (conf_get conf "templateName") ;;
           ret (succeed_msg ("Template " ++ py_str t ++ " succesfully created") true))
  end.

(** Step (4): the hardware RAID grouping. *)
Definition template_hardware_raid (nm : string) (conf : list (string * value)) : M outcome :=
  result <- client GET ("/dedicated/server/" ++ nm ++ "/install/hardwareRaidProfile") [] ;;
  controllers <- lift (py_getitem result "controllers") ;;
  n <- lift (py_len controllers) ;;
  if negb (n =? 1)%nat then ret (fail controllers_message) else
  disks <- lift (raid_disks result) ;;
  attempt (path <- lift (hardware_raid_path conf) ;;
           mode <- lift (conf_get conf "raidMode") ;;
           scheme <- lift (conf_get conf "partitionScheme") ;;
           client POST path
             [("disks", disks); ("mode", mode); ("name", scheme); ("step", VInt 1)])
    (fun _ => template_partitions conf).

Definition generate_template (self : OVHModule) : M outcome :=
  let p := self_params self in
  if negb (truthy_str (template p)) then ret (fail "No template parameter given") else
  if check_mode self then
    ret (succeed_msg "%s succesfully %s on ovh API - (dry run mode)" true)
  else
  if negb ((state p =? "present") || (state p =? "absent")) then
    ret (fail ("State " ++ state p ++ " not supported. Only present/absent"))
  else
  content <- lift (yaml_load (fmt (template p))) ;;
  conf <- lift (match content with VDict d => Ok d | _ => Raise AttributeError end) ;;
  if state p =? "absent" then
    attempt (t <- lift (conf_get conf "templateName") ;;
             client DELETE ("/me/installationTemplate/" ++ py_str t) [])
      (fun _ =>
         t <- lift (conf_get conf "templateName") ;;
         ret (succeed_msg ("Template " ++ py_str t ++ " succesfully deleted") true))
  else
  attempt (base <- lift (conf_get conf "baseTemplateName") ;;
           language <- lift (conf_get conf "defaultLanguage") ;;
           t <- lift (conf_get conf "templateName") ;;
           client POST "/me/installationTemplate"
             [("baseTemplateName", base); ("defaultLanguage", language); ("name", t)])
  (fun _ =>
  custom_hostname <- lift (conf_get conf "customHostname") ;;
  script_link <- lift (conf_get conf "postInstallationScriptLink") ;;
  script_return <- lift (conf_get conf "postInstallationScriptReturn") ;;
  ssh_key <- lift (conf_get conf "sshKeyName") ;;
  kernel <- lift (conf_get conf "useDistributionKernel") ;;
  language <- lift (conf_get conf "defaultLanguage") ;;
  t <- lift (conf_get conf "templateName") ;;
  attempt (client PUT ("/me/installationTemplate/" ++ py_str t)
             [("customization",
               VDict [("customHostname", custom_hostname);
                      ("postInstallationScriptLink", script_link);
                      ("postInstallationScriptReturn", script_return);
                      ("sshKeyName", ssh_key);
                      ("useDistributionKernel", kernel)]);
              ("defaultLanguage", language);
              ("templateName", t)])
  (fun _ =>
  attempt (scheme <- lift (conf_get conf "partitionScheme") ;;
           priority <- lift (conf_get conf "partitionSchemePriority") ;;
           client POST ("/me/installationTemplate/" ++ py_str t ++ "/partitionScheme")
             [("name", scheme); ("priority", priority)])
  (fun _ =>
  raid <- lift (conf_get conf "isHardwareRaid") ;;
  if truthy raid
  then template_hardware_raid (name p) conf
  else template_partitions conf))).

(** *** change_vrack *)

Definition already_registered (nm vr : string) : outcome :=
  succeed_msg (nm ++ " is already registered on " ++ vr) false.

(** [for new_server in l: if new_server['dedicatedServer'] == name]: the
    first entry of [l] that names the server. *)
Fixpoint find_interface (nm : string) (l : list value) : res (option value) :=
  match l with
  | [] => Ok None
  | new_server :: rest =>
      do s <- py_getitem new_server "dedicatedServer";
      if py_eq_str s nm then Ok (Some new_server) else find_interface nm rest
  end.

Definition change_vrack (self : OVHModule) : M outcome :=
  let p := self_params self in
  let nm := name p in
  if negb (truthy_str (vrack p)) then
    ret (fail "Please give a vrack name to add/remove your server")
  else
  let vr := fmt (vrack p) in
  if negb ((state p =? "present") || (state p =? "absent")) then
    ret (succeed_msg "Vrack service only uses present/absent state" false)
  else
  if check_mode self then
    ret (succeed_msg (nm ++ " succesfully " ++ state p ++ " on " ++ vr ++
                      " - (dry run mode)") true)
  else
  if state p =? "present" then
    attempt (client GET ("/dedicated/server/" ++ nm ++ "/virtualNetworkInterface")
               [("mode", VStr "vrack")])
    (fun result =>
       n <- lift (py_len result) ;;
       if negb (n =? 0)%nat then
         (* new generation *)
         attempt (client GET ("/vrack/" ++ vr ++ "/dedicatedServerInterfaceDetails") [])
         (fun is_already_registered =>
            l <- lift (py_iter is_already_registered) ;;
            found <- lift (find_interface nm l) ;;
            match found with
            | Some _ => ret (already_registered nm vr)
            | None =>
                guarded (server_interface <- lift (py_join result) ;;
                         result2 <- client POST ("/vrack/" ++ vr ++ "/dedicatedServerInterface")
                                      [("dedicatedServerInterface", VStr server_interface)] ;;
                         ret (succeed VNone true result2 VNone))
            end)
       else
         (* old generation *)
         attempt (client GET ("/vrack/" ++ vr ++ "/dedicatedServer") [])
         (fun is_already_registered =>
            l <- lift (py_iter is_already_registered) ;;
            if existsb (fun old_server => py_eq_str old_server nm) l
            then ret (already_registered nm vr)
            else
              guarded (result2 <- client POST ("/vrack/" ++ vr ++ "/dedicatedServer")
                                    [("dedicatedServer", VStr nm)] ;;
                       ret (succeed VNone true result2 VNone))))
  else
    attempt (result_new <- client GET ("/vrack/" ++ vr ++ "/dedicatedServerInterfaceDetails") [] ;;
             result_old <- client GET ("/vrack/" ++ vr ++ "/dedicatedServer") [] ;;
             ret (result_new, result_old))
    (fun results =>
       new_l <- lift (py_iter (fst results)) ;;
       found <- lift (find_interface nm new_l) ;;
       match found with
       | Some new_server =>
           guarded (iface <- lift (py_getitem new_server "dedicatedServerInterface") ;;
                    result <- client DELETE ("/vrack/" ++ vr ++ "/dedicatedServerInterface/" ++
                                             py_str iface) [] ;;
                    ret (succeed VNone true result VNone))
       | None =>
           old_l <- lift (py_iter (snd results)) ;;
           if existsb (fun old_server => py_eq_str old_server nm) old_l
           then
             guarded (result <- client DELETE ("/vrack/" ++ vr ++ "/dedicatedServer/" ++ nm) [] ;;
                      ret (succeed VNone true result VNone))
           else ret (succeed_msg ("No " ++ nm ++ " in " ++ vr) false)
       end).

(** *** run *)

(** [run], from the dispatch on: [choice_map.get(self.params['service'])()].
    Calling the [None] that an unknown service maps to is a [TypeError].  The
    construction of the OVH client before the dispatch is the gateway's
    business and is not modelled. *)
Definition run (self : OVHModule) : M outcome :=
  let s := service (self_params self) in
  if s =? "dns" then change_dns self
  else if s =? "getmac" then get_mac self
  else if s =? "terminate" then terminate_server self
  else if s =? "status" then get_status_install self
  else if s =? "install" then launch_install self
  else if s =? "monitoring" then change_monitoring self
  else if s =? "reverse" then change_reverse self
  else if s =? "list" then list_service self
  else if s =? "boot" then change_boot_dedicated self
  else if s =? "template" then generate_template self
  else if s =? "vrack" then change_vrack self
  else raise TypeError.

End Engine.

Arguments ret {W A} a _.
Arguments raise {W A} e _.
Arguments lift {W A} r _.
Arguments emit {W A} e1 x.
Arguments bind {W A B} m k _.
Arguments time_sleep {W} seconds _.
Arguments display {W} t _.
Arguments except_APIError {W A} body handler _.
Arguments except_ResourceNotFoundError {W A} body handler _.
Arguments client {W} gw m path kwargs _.
Arguments attempt {W A} body rest _.
Arguments guarded {W} body _.
Arguments dns_scan {W} gw dom nm ipaddr ids.
Arguments dns_delete_each {W} gw dom ids record_deleted.
Arguments change_dns {W} gw self.
Arguments get_mac {W} gw self.
Arguments terminate_server {W} gw self.
Arguments status_loop {W} gw nm retries seconds attempts.
Arguments get_status_install {W} gw self.
Arguments launch_install {W} gw self.
Arguments monitoring_loop {W} gw nm shouldbe seconds attempts.
Arguments change_monitoring {W} gw self.
Arguments change_reverse {W} gw self.
Arguments dedicated_each {W} gw l customlist.
Arguments list_dedicated {W} gw.
Arguments list_templates {W} gw.
Arguments list_service {W} gw self.
Arguments change_boot_dedicated {W} gw self.
Arguments partition_each {W} gw literal_eval conf l.
Arguments template_partitions {W} gw literal_eval conf.
Arguments template_hardware_raid {W} gw literal_eval nm conf.
Arguments generate_template {W} gw yaml_load literal_eval self.
Arguments change_vrack {W} gw self.
Arguments run {W} gw yaml_load literal_eval self.

(** ** Gateways and requests used in the examples *)

Definition unanswered : api_error :=
  {| not_found := false; text := "Internal server error" |}.

(** A gateway that answers from a script, one entry per call, whatever the
    call; once the script is used up every call is an error. *)
Definition scripted : gateway (list (value + api_error)) :=
  fun _ _ _ script =>
    match script with
    | answer :: rest => (answer, rest)
    | [] => (inr unanswered, [])
    end.

Definition same_method (m m' : method) : bool :=
  match m, m' with
  | GET, GET | POST, POST | PUT, PUT | DELETE, DELETE => true
  | _, _ => false
  end.

Fixpoint table_find (m : method) (path : string) (t : list (method * string * value))
  : option value :=
  match t with
  | [] => None
  | (m', path', v) :: r =>
      if same_method m m' && (path' =? path) then Some v else table_find m path r
  end.

(** A gateway without state that answers a call by its method and path, and
    with an error when the table has no answer. *)
Definition static (t : list (method * string * value)) : gateway unit :=
  fun m path _ w =>
    match table_find m path t with
    | Some v => (inl v, w)
    | None => (inr unanswered, w)
    end.

(** A dedicated server whose remote state is its monitoring flag: every
    [get] shows the flag, a [put] of [monitoring] sets it. *)
Definition flag_server : gateway bool :=
  fun m _ kwargs flag =>
    match m with
    | GET => (inl (VDict [("bootId", VInt 1); ("monitoring", VBool flag)]), flag)
    | PUT =>
        match lookup "monitoring" kwargs with
        | Some (VBool b) => (inl VNone, b)
        | _ => (inl VNone, flag)
        end
    | _ => (inr unanswered, flag)
    end.

(** The server [sv1] being installed: the status of its reinstall task is
    "doing" on the first [k] fetches and "done" from then on.  The remote
    state is the number of fetches of that status so far. *)
Definition installing_server (k : nat) : gateway nat :=
  fun m path _ fetched =>
    match m with
    | GET =>
        if path =? "/dedicated/server/sv1/task" then (inl (VList [VInt 7]), fetched)
        else if path =? "/dedicated/server/sv1/task/7" then
          (inl (VDict [("status", VStr (if (fetched <? k)%nat then "doing" else "done"))]),
           S fetched)
        else if path =? "/dedicated/server/sv1/install/status" then
          (inl (VDict [("progress",
                        VList [VDict [("comment", VStr "Partitioning disks");
                                      ("status", VStr "doing")]])]),
           fetched)
        else (inr unanswered, fetched)
    | _ => (inr unanswered, fetched)
    end.

Definition no_yaml : string -> res value := fun _ => Raise IOError.
Definition no_eval : value -> res value := fun _ => Raise ValueError.

(** A request with the defaults of the argument specification. *)
Definition request (service name state : string) : params :=
  {| name := name; state := state; service := service; domain := None; ip := None;
     vrack := None; boot := "harddisk"; force_reboot := false; template := None;
     post_installation_script_link := None; hostname := None; max_retry := 10;
     sleep := 10; ssh_key_name := None; use_distrib_kernel := false;
     link_type := "private" |}.

Definition with_retries (n : Z) (p : params) : params :=
  {| name := name p; state := state p; service := service p; domain := domain p;
     ip := ip p; vrack := vrack p; boot := boot p; force_reboot := force_reboot p;
     template := template p;
     post_installation_script_link := post_installation_script_link p;
     hostname := hostname p; max_retry := n; sleep := sleep p;
     ssh_key_name := ssh_key_name p; use_distrib_kernel := use_distrib_kernel p;
     link_type := link_type p |}.

Definition with_delay (z : Z) (p : params) : params :=
  {| name := name p; state := state p; service := service p; domain := domain p;
     ip := ip p; vrack := vrack p; boot := boot p; force_reboot := force_reboot p;
     template := template p;
     post_installation_script_link := post_installation_script_link p;
     hostname := hostname p; max_retry := max_retry p; sleep := z;
     ssh_key_name := ssh_key_name p; use_distrib_kernel := use_distrib_kernel p;
     link_type := link_type p |}.

Definition dns_request : params :=
  {| name := "internal.bar"; state := "present"; service := "dns";
     domain := Some "example.com"; ip := Some "192.0.2.1";
     vrack := None; boot := "harddisk"; force_reboot := false; template := None;
     post_installation_script_link := None; hostname := None; max_retry := 10;
     sleep := 10; ssh_key_name := None; use_distrib_kernel := false;
     link_type := "private" |}.

Definition a_record (id : Z) (target : string) : value :=
  VDict [("fieldType", VStr "A"); ("id", VInt id); ("subDomain", VStr "internal.bar");
         ("target", VStr target); ("zone", VStr "example.com")].


(** Two A records for the name, neither with the desired target. *)
Definition zone_with_stale_records : list (method * string * value) :=
  [(GET, "/domain/zone/example.com/record", VList [VInt 1; VInt 2]);
   (GET, "/domain/zone/example.com/record/1", a_record 1 "192.0.2.9");
   (GET, "/domain/zone/example.com/record/2", a_record 2 "192.0.2.8")].

Definition empty_zone : list (method * string * value) :=
  [(GET, "/domain/zone/example.com/record", VList [])].

(** A reinstall task that stays in progress. *)
Definition stuck_install : list (method * string * value) :=
  [(GET, "/dedicated/server/sv1/task", VList [VInt 7]);
   (GET, "/dedicated/server/sv1/task/7", VDict [("status", VStr "doing")]);
   (GET, "/dedicated/server/sv1/install/status", VDict [("message", VStr not_installing)])].

(** The same task when the progress report cannot be fetched. *)
Definition install_without_progress : list (method * string * value) :=
  [(GET, "/dedicated/server/sv1/task", VList [VInt 7]);
   (GET, "/dedicated/server/sv1/task/7", VDict [("status", VStr "doing")])].

Definition vrack_request : params :=
  {| name := "sv1"; state := "present"; service := "vrack";
     domain := None; ip := None;
     vrack := Some "pn-1"; boot := "harddisk"; force_reboot := false; template := None;
     post_installation_script_link := None; hostname := None; max_retry := 10;
     sleep := 10; ssh_key_name := None; use_distrib_kernel := false;
     link_type := "private" |}.

(** A server of the old network generation that is in the vrack already. *)
Definition legacy_vrack : list (method * string * value) :=
  [(GET, "/dedicated/server/sv1/virtualNetworkInterface", VList []);
   (GET, "/vrack/pn-1/dedicatedServer", VList [VStr "sv0"; VStr "sv1"])].

Definition rescue_request : params :=
  {| name := "sv1"; state := "present"; service := "boot";
     domain := None; ip := None;
     vrack := None; boot := "rescue"; force_reboot := true; template := None;
     post_installation_script_link := None; hostname := None; max_retry := 10;
     sleep := 10; ssh_key_name := None; use_distrib_kernel := false;
     link_type := "private" |}.

Definition template_request : params :=
  {| name := "sv1"; state := "present"; service := "template";
     domain := None; ip := None;
     vrack := None; boot := "harddisk"; force_reboot := false;
     template := Some "roles/ovh/files/raid.yml";
     post_installation_script_link := None; hostname := None; max_retry := 10;
     sleep := 10; ssh_key_name := None; use_distrib_kernel := false;
     link_type := "private" |}.

Definition raid_template : list (string * value) :=
  [("templateName", VStr "custom-raid"); ("baseTemplateName", VStr "debian10_64");
   ("defaultLanguage", VStr "en"); ("customHostname", VStr "sv1.example.com");
   ("postInstallationScriptLink", VNone); ("postInstallationScriptReturn", VNone);
   ("sshKeyName", VStr "deploy"); ("useDistributionKernel", VBool true);
   ("partitionScheme", VStr "custom"); ("partitionSchemePriority", VInt 1);
   ("isHardwareRaid", VBool true); ("raidMode", VStr "raid1");
   ("partition", VList [])].

Definition raid_yaml : string -> res value := fun _ => Ok (VDict raid_template).

(** A hardware RAID profile with one controller and the given disk groups. *)
Definition raid_profile (groups : list (list string)) : value :=
  VDict [("controllers",
          VList [VDict [("disks",
                         VList (map (fun names =>
                                       VDict [("names", VList (map VStr names))]) groups));
                        ("type", VStr "lsi")]])].

Definition two_controllers : value :=
  VDict [("controllers",
          VList [VDict [("disks", VList [VDict [("names", VList [VStr "c0:d0"])]])];
                 VDict [("disks", VList [VDict [("names", VList [VStr "c1:d0"])]])]])].

(** ** Observations on a run *)

Definition result_of {W A} (x : res A * W * list event) : res A := fst (fst x).
Definition events_of {W A} (x : res A * W * list event) : list event := snd x.

(** No [post], [put] or [delete] among the events. *)
Definition read_only (evs : list event) : Prop :=
  forallb (fun e => negb (mutating e)) evs = true.

(** A computation that never issues a mutating call, whatever the remote
    state it starts from. *)
Definition quiet {W A} (m : M W A) : Prop :=
  forall w, read_only (events_of (m w)).

(** A run that ends in success with [changed=True]. *)
Definition reports_change {W} (x : res outcome * W * list event) : Prop :=
  exists result, result_of x = Ok (None, true, result).

Definition simulated (p : params) : OVHModule := {| check_mode := true; self_params := p |}.
Definition applied (p : params) : OVHModule := {| check_mode := false; self_params := p |}.

(** One round of the status poll from the remote state [w]: the newest
    reinstall task is fetched, its status is [status], and the round leaves
    the remote state [w'].  [waiting_round] is a round whose status does not
    contain "done" and whose progress report reads as [message];
    [done_round] is a round whose status contains "done". *)
Definition waiting_round {W} (gw : gateway W) (nm : string) (w w' : W)
  (status message : value) : Prop :=
  exists tasklist newest result progress_status w1 w2,
    gw GET ("/dedicated/server/" ++ nm ++ "/task") [("function", VStr "reinstallServer")] w =
      (inl tasklist, w1) /\
    py_max tasklist = Ok newest /\
    gw GET ("/dedicated/server/" ++ nm ++ "/task/" ++ py_str newest) [] w1 = (inl result, w2) /\
    py_getitem result "status" = Ok status /\
    py_contains status "done" = Ok false /\
    gw GET ("/dedicated/server/" ++ nm ++ "/install/status") [] w2 = (inl progress_status, w') /\
    install_message progress_status = Ok message.

Definition done_round {W} (gw : gateway W) (nm : string) (w w' : W) (status : value) : Prop :=
  exists tasklist newest result w1,
    gw GET ("/dedicated/server/" ++ nm ++ "/task") [("function", VStr "reinstallServer")] w =
      (inl tasklist, w1) /\
    py_max tasklist = Ok newest /\
    gw GET ("/dedicated/server/" ++ nm ++ "/task/" ++ py_str newest) [] w1 = (inl result, w') /\
    py_getitem result "status" = Ok status /\
    py_contains status "done" = Ok true.


(** The status fetch is not done for the next [k] rounds and done on the
    round after them, which answers [status] and leaves the remote state
    [w']. *)
Inductive done_after {W} (gw : gateway W) (nm : string) (w' : W) (status : value)
  : nat -> W -> Prop :=
| done_now w :
    done_round gw nm w w' status -> done_after gw nm w' status O w
| done_later k w w1 s m :
    waiting_round gw nm w w1 s m ->
    done_after gw nm w' status k w1 ->
    done_after gw nm w' status (S k) w.

(** The fetches of a task's status: the [get]s below [/task/]. *)
Definition status_fetches (nm : string) (evs : list event) : nat :=
  List.length
    (filter (fun e => match e with
                      | Call GET path _ => prefix ("/dedicated/server/" ++ nm ++ "/task/") path
                      | _ => false
                      end) evs).

Definition sleeps (evs : list event) : list event := filter is_sleep evs.


(** The RAID grouping [post]s: the [post]s that carry a [disks] argument. *)
Definition raid_posts (evs : list event) : list event :=
  filter (fun e => match e with
                   | Call POST _ kwargs => existsb (fun kv => fst kv =? "disks") kwargs
                   | _ => false
                   end) evs.


(** The remote state already is the desired one, as the reads of each kind
    see it: the situation a first successful reconciliation leaves behind. *)
Inductive already_desired {W} (gw : gateway W) (p : params) (w : W) : Prop :=
| dns_record_current existing ind rest record w1 w2 :
    service p = "dns" ->
    truthy_str (domain p) = true ->
    name p <> "refresh" ->
    state p = "present" ->
    truthy_str (ip p) = true ->
    gw GET ("/domain/zone/" ++ fmt (domain p) ++ "/record")
      [("fieldType", VStr "A"); ("subDomain", VStr (name p))] w = (inl existing, w1) ->
    py_iter existing = Ok (ind :: rest) ->
    gw GET (record_path (fmt (domain p)) ind) [] w1 = (inl record, w2) ->
    record_is record (name p) (fmt (ip p)) = Ok true ->
    already_desired gw p w
| dns_record_absent existing w1 :
    service p = "dns" ->
    truthy_str (domain p) = true ->
    name p <> "refresh" ->
    state p = "absent" ->
    gw GET ("/domain/zone/" ++ fmt (domain p) ++ "/record")
      [("fieldType", VStr "A"); ("subDomain", VStr (name p))] w = (inl existing, w1) ->
    truthy existing = false ->
    already_desired gw p w
| reverse_current result reverse w1 :
    service p = "reverse" ->
    truthy_str (domain p) = true ->
    truthy_str (ip p) = true ->
    gw GET ("/ip/" ++ fmt (ip p) ++ "/reverse/" ++ fmt (ip p)) [] w = (inl result, w1) ->
    py_getitem result "reverse" = Ok reverse ->
    py_eq_str reverse (name p ++ "." ++ fmt (domain p) ++ ".") = true ->
    already_desired gw p w
| boot_current check wanted current w1 :
    service p = "boot" ->
    force_reboot p = false ->
    gw GET ("/dedicated/server/" ++ name p) [] w = (inl check, w1) ->
    bootid_of (boot p) bootid = Ok wanted ->
    py_getitem check "bootId" = Ok current ->
    py_eq_int current wanted = true ->
    already_desired gw p w
| vrack_interface_member result n registered l entry w1 w2 :
    service p = "vrack" ->
    truthy_str (vrack p) = true ->
    state p = "present" ->
    gw GET ("/dedicated/server/" ++ name p ++ "/virtualNetworkInterface")
      [("mode", VStr "vrack")] w = (inl result, w1) ->
    py_len result = Ok (S n) ->
    gw GET ("/vrack/" ++ fmt (vrack p) ++ "/dedicatedServerInterfaceDetails") [] w1 =
      (inl registered, w2) ->
    py_iter registered = Ok l ->
    find_interface (name p) l = Ok (Some entry) ->
    already_desired gw p w
| vrack_legacy_member result registered l w1 w2 :
    service p = "vrack" ->
    truthy_str (vrack p) = true ->
    state p = "present" ->
    gw GET ("/dedicated/server/" ++ name p ++ "/virtualNetworkInterface")
      [("mode", VStr "vrack")] w = (inl result, w1) ->
    py_len result = Ok O ->
    gw GET ("/vrack/" ++ fmt (vrack p) ++ "/dedicatedServer") [] w1 = (inl registered, w2) ->
    py_iter registered = Ok l ->
    existsb (fun old_server => py_eq_str old_server (name p)) l = true ->
    already_desired gw p w
| vrack_not_member result_new result_old new_l old_l w1 w2 :
    service p = "vrack" ->
    truthy_str (vrack p) = true ->
    state p = "absent" ->
    gw GET ("/vrack/" ++ fmt (vrack p) ++ "/dedicatedServerInterfaceDetails") [] w =
      (inl result_new, w1) ->
    gw GET ("/vrack/" ++ fmt (vrack p) ++ "/dedicatedServer") [] w1 = (inl result_old, w2) ->
    py_iter result_new = Ok new_l ->
    find_interface (name p) new_l = Ok None ->
    py_iter result_old = Ok old_l ->
    existsb (fun old_server => py_eq_str old_server (name p)) old_l = false ->
    already_desired gw p w.

Definition dns_removal : params :=
  {| name := "internal.bar"; state := "absent"; service := "dns";
     domain := Some "example.com"; ip := None;
     vrack := None; boot := "harddisk"; force_reboot := false; template := None;
     post_installation_script_link := None; hostname := None; max_retry := 10;
     sleep := 10; ssh_key_name := None; use_distrib_kernel := false;
     link_type := "private" |}.

Definition dns_request_without_ip : params :=
  {| name := "internal.bar"; state := "present"; service := "dns";
     domain := Some "example.com"; ip := None;
     vrack := None; boot := "harddisk"; force_reboot := false; template := None;
     post_installation_script_link := None; hostname := None; max_retry := 10;
     sleep := 10; ssh_key_name := None; use_distrib_kernel := false;
     link_type := "private" |}.

(** One A record for the name, with another target than the desired one. *)
Definition zone_with_one_stale_record : list (method * string * value) :=
  [(GET, "/domain/zone/example.com/record", VList [VInt 1]);
   (GET, "/domain/zone/example.com/record/1", a_record 1 "192.0.2.9");
   (PUT, "/domain/zone/example.com/record/1", VNone)].

(** Two A records for the name, both of which can be deleted. *)
Definition zone_with_two_records : list (method * string * value) :=
  [(GET, "/domain/zone/example.com/record", VList [VInt 1; VInt 2]);
   (GET, "/domain/zone/example.com/record/1", a_record 1 "192.0.2.9");
   (GET, "/domain/zone/example.com/record/2", a_record 2 "192.0.2.8");
   (DELETE, "/domain/zone/example.com/record/1", VNone);
   (DELETE, "/domain/zone/example.com/record/2", VNone)].

(** The number of mutating calls among the events. *)
Definition writes (evs : list event) : nat := List.length (filter mutating evs).

(** A computation that issues at most one mutating call. *)
Definition single_write {W A} (m : M W A) : Prop :=
  forall w, writes (events_of (m w)) <= 1.

Definition reverse_request : params :=
  {| name := "internal.bar"; state := "present"; service := "reverse";
     domain := Some "example.com"; ip := Some "192.0.2.1";
     vrack := None; boot := "harddisk"; force_reboot := false; template := None;
     post_installation_script_link := None; hostname := None; max_retry := 10;
     sleep := 10; ssh_key_name := None; use_distrib_kernel := false;
     link_type := "private" |}.

(** A gateway that knows no reverse for any IP and accepts every write. *)
Definition no_reverse : gateway unit :=
  fun m _ _ w =>
    match m with
    | GET => (inr {| not_found := true; text := "The requested object (ipReverse) does not exist" |}, w)
    | _ => (inl VNone, w)
    end.

Definition is_delete (e : event) : bool :=
  match e with
  | Call DELETE _ _ => true
  | _ => false
  end.

(** A computation none of whose events satisfies [bad], whatever the remote
    state it starts from. *)
Definition free_of {W A} (bad : event -> bool) (m : M W A) : Prop :=
  forall w, existsb bad (events_of (m w)) = false.

Definition install_request : params :=
  {| name := "sv1"; state := "present"; service := "install";
     domain := None; ip := None;
     vrack := None; boot := "harddisk"; force_reboot := false;
     template := Some "custom-raid";
     post_installation_script_link := None; hostname := Some "sv1.example.com";
     max_retry := 10; sleep := 10; ssh_key_name := Some "deploy";
     use_distrib_kernel := true; link_type := "private" |}.

(** A server whose personal templates include the requested one, for an
    account that has the requested SSH key. *)
Definition installable_server : list (method * string * value) :=
  [(GET, "/dedicated/server/sv1/install/compatibleTemplates",
    VDict [("ovh", VList [VStr "debian10_64"; VStr "centos7_64"]);
           ("personal", VList [VStr "custom-raid"])]);
   (GET, "/me/sshKey", VList [VStr "deploy"; VStr "backup"]);
   (POST, "/dedicated/server/sv1/install/start", VNone)].

Definition template_removal : params :=
  {| name := "sv1"; state := "absent"; service := "template";
     domain := None; ip := None;
     vrack := None; boot := "harddisk"; force_reboot := false;
     template := Some "roles/ovh/files/raid.yml";
     post_installation_script_link := None; hostname := None; max_retry := 10;
     sleep := 10; ssh_key_name := None; use_distrib_kernel := false;
     link_type := "private" |}.

(** The account's templates, with two temporary ones of the manager. *)
Definition account_templates : list (method * string * value) :=
  [(GET, "/me/installationTemplate",
    VList [VStr "custom-raid"; VStr "tmp-mgr-12345"; VStr "debian-base";
           VStr "old-tmp-mgr"])].

(** The account's two servers. *)
Definition account_servers : list (method * string * value) :=
  [(GET, "/dedicated/server", VList [VStr "ns1.ip-192-0-2.eu"; VStr "ns2.ip-192-0-2.eu"]);
   (GET, "/dedicated/server/ns1.ip-192-0-2.eu", VDict [("reverse", VStr "db1.example.com.")]);
   (GET, "/dedicated/server/ns2.ip-192-0-2.eu", VDict [("reverse", VStr "db2.example.com.")])].


(** A gateway that accepts every call and answers [None]. *)
Definition accepting : gateway unit := fun _ _ _ w => (inl VNone, w).






Definition vrack_removal : params :=
  {| name := "sv1"; state := "absent"; service := "vrack";
     domain := None; ip := None;
     vrack := Some "pn-1"; boot := "harddisk"; force_reboot := false; template := None;
     post_installation_script_link := None; hostname := None; max_retry := 10;
     sleep := 10; ssh_key_name := None; use_distrib_kernel := false;
     link_type := "private" |}.

(** A vrack that has the server both by an interface and in the legacy
    list. *)
Definition vrack_with_interface : list (method * string * value) :=
  [(GET, "/vrack/pn-1/dedicatedServerInterfaceDetails",
    VList [VDict [("dedicatedServer", VStr "sv0"); ("dedicatedServerInterface", VStr "aaaa")];
           VDict [("dedicatedServer", VStr "sv1"); ("dedicatedServerInterface", VStr "bbbb")]]);
   (GET, "/vrack/pn-1/dedicatedServer", VList [VStr "sv1"]);
   (DELETE, "/vrack/pn-1/dedicatedServerInterface/bbbb", VNone)].

(** A vrack that has the server in the legacy list only. *)
Definition vrack_with_legacy_member : list (method * string * value) :=
  [(GET, "/vrack/pn-1/dedicatedServerInterfaceDetails", VList []);
   (GET, "/vrack/pn-1/dedicatedServer", VList [VStr "sv0"; VStr "sv1"]);
   (DELETE, "/vrack/pn-1/dedicatedServer/sv1", VNone)].


(** An entry of the progress report of an installation. *)
Definition step_report (status comment : string) : value :=
  VDict [("comment", VStr comment); ("status", VStr status)].

(** *** main *)

(** What [main] hands to Ansible: the keyword arguments of [exit_json] or
    of [fail_json]. *)
Inductive report : Type :=
| exit_json (kwargs : list (string * value))
| fail_json (kwargs : list (string * value)).

(** The keywords of a call [f(k=v, **d)]: a keyword that [d] gives again is
    a [TypeError]. *)
Definition keywords (k : string) (v : value) (d : list (string * value))
  : res (list (string * value)) :=
  if existsb (fun kv => fst kv =? k) d then Raise TypeError else Ok ((k, v) :: d).

(** The end of [main], from the triple that [run] returned. *)
Definition main (o : outcome) : res report :=
  match o with
  | (None, changed, result) =>
      do kwargs <- keywords "changed" (VBool changed) result; Ok (exit_json kwargs)
  | (Some error, _, result) =>
      do kwargs <- keywords "msg" (VStr error) result; Ok (fail_json kwargs)
  end.

(** An outcome as [fail] or [succeed] builds it. *)
Definition built (o : outcome) : Prop :=
  (exists message, o = fail message) \/
  (exists message changed contents objects, o = succeed message changed contents objects).

(** A computation whose result, when it returns one, satisfies [P]. *)
Definition yields {W A} (P : A -> Prop) (m : M W A) : Prop :=
  forall w a, result_of (m w) = Ok a -> P a.

Definition built_or_none (r : option outcome) : Prop :=
  forall o, r = Some o -> built o.


Definition refresh_request : params :=
  {| name := "refresh"; state := "absent"; service := "dns";
     domain := Some "example.com"; ip := Some "192.0.2.1";
     vrack := None; boot := "harddisk"; force_reboot := false; template := None;
     post_installation_script_link := None; hostname := None; max_retry := 10;
     sleep := 10; ssh_key_name := None; use_distrib_kernel := false;
     link_type := "private" |}.


(** ** Properties *)

Section Properties.

Variable W : Type.
Variable gw : gateway W.
Variable yaml_load : string -> res value.
Variable literal_eval : value -> res value.

Lemma client_events m path kw w :
  snd (client gw m path kw w) = [Call m path kw].
Proof. unfold client. destruct (gw m path kw w) as [[v|err] w1]; reflexivity. Qed.

Lemma read_only_app e1 e2 : read_only e1 -> read_only e2 -> read_only (e1 ++ e2).
Proof. unfold read_only. intros H1 H2. rewrite forallb_app, H1, H2. reflexivity. Qed.

Lemma read_only_not_mutating evs :
  read_only evs -> existsb mutating evs = true -> False.
Proof.
  unfold read_only. induction evs as [|e evs IH]; simpl; intros H1 H2.
  - discriminate.
  - apply andb_prop in H1. destruct H1 as [He Hr].
    apply orb_prop in H2. destruct H2 as [H2|H2].
    + rewrite H2 in He. discriminate.
    + auto.
Qed.

Lemma quiet_ret {A} (a : A) : quiet (@ret W A a).
Proof. intro w. reflexivity. Qed.

Lemma quiet_raise {A} e : quiet (@raise W A e).
Proof. intro w. reflexivity. Qed.

Lemma quiet_lift {A} (r : res A) : quiet (@lift W A r).
Proof. intro w. reflexivity. Qed.

Lemma quiet_display t : quiet (@display W t).
Proof. intro w. reflexivity. Qed.

Lemma py_float_exact z : (Z.abs z < 2 ^ 53)%Z -> py_float z = Ok z.
Proof.
  intro H. unfold py_float. apply Z.ltb_lt in H. rewrite H. reflexivity.
Qed.

Lemma py_float_nonneg z f : py_float z = Ok f -> (0 <= z)%Z -> (0 <= f)%Z.
Proof.
  unfold py_float. intros H Hz.
  destruct (Z.abs z <? 2 ^ 53)%Z; [ injection H as <-; exact Hz | ].
  destruct (2 ^ 1024 <=? _)%Z; [ discriminate | ].
  injection H as <-.
  apply Z.mul_nonneg_nonneg; [ apply Z.sgn_nonneg; exact Hz | ].
  apply Z.mul_nonneg_nonneg; [ | apply Z.pow_nonneg; lia ].
  assert (0 <= Z.shiftr (Z.abs z) (Z.log2 (Z.abs z) - 52))%Z as Hq
    by (apply Z.shiftr_nonneg, Z.abs_nonneg).
  destruct (_ || _); lia.
Qed.

(** A sleep of a delay that [float] accepts and that is not negative. *)
Lemma time_sleep_run seconds secs (w : W) :
  py_float seconds = Ok secs -> (0 <= seconds)%Z ->
  time_sleep seconds w = (Ok tt, w, [Sleep secs]).
Proof.
  intros Hfloat Hpos. unfold time_sleep, bind, lift. rewrite Hfloat.
  pose proof (py_float_nonneg _ _ Hfloat Hpos) as Hsecs.
  apply Z.ltb_ge in Hsecs. rewrite Hsecs. reflexivity.
Qed.

(** A sleep sleeps, or raises before it does. *)
Lemma time_sleep_cases seconds (w : W) :
  (exists secs, time_sleep seconds w = (Ok tt, w, [Sleep secs])) \/
  (exists e, time_sleep seconds w = (Raise e, w, [])).
Proof.
  unfold time_sleep, bind, lift.
  destruct (py_float seconds) as [secs|e]; [ | right; exists e; reflexivity ].
  cbn [emit app]. destruct (secs <? 0)%Z.
  - right. exists ValueError. reflexivity.
  - left. exists secs. reflexivity.
Qed.

Lemma quiet_sleep z : quiet (@time_sleep W z).
Proof.
  intro w. destruct (time_sleep_cases z w) as [[secs ->]|[e ->]]; reflexivity.
Qed.

Lemma quiet_get path kw : quiet (client gw GET path kw).
Proof.
  intro w. unfold events_of. rewrite client_events. reflexivity.
Qed.

Lemma quiet_bind {A B} (m : M W A) (k : A -> M W B) :
  quiet m -> (forall a, quiet (k a)) -> quiet (bind m k).
Proof.
  intros Hm Hk w. specialize (Hm w). unfold bind, emit, events_of in *.
  destruct (m w) as [[[a|e] w1] e1]; simpl in *; auto.
  specialize (Hk a w1). unfold events_of in Hk.
  destruct (k a w1) as [[r w2] e2]. simpl in *.
  apply read_only_app; assumption.
Qed.

Lemma quiet_except {A} (body : M W A) (handler : string -> M W A) :
  quiet body -> (forall msg, quiet (handler msg)) -> quiet (except_APIError body handler).
Proof.
  intros Hm Hk w. specialize (Hm w). unfold except_APIError, emit, events_of in *.
  destruct (body w) as [[[a|e] w1] e1]; simpl in *; auto.
  destruct e; auto.
  specialize (Hk msg w1). unfold events_of in Hk.
  destruct (handler msg w1) as [[r w2] e2]. simpl in *.
  apply read_only_app; assumption.
Qed.

Lemma quiet_except_not_found {A} (body : M W A) (handler : M W A) :
  quiet body -> quiet handler -> quiet (except_ResourceNotFoundError body handler).
Proof.
  intros Hm Hk w. specialize (Hm w). unfold except_ResourceNotFoundError, emit, events_of in *.
  destruct (body w) as [[[a|e] w1] e1]; simpl in *; auto.
  destruct e; auto. destruct not_found0; auto.
  specialize (Hk w1). unfold events_of in Hk.
  destruct (handler w1) as [[r w2] e2]. simpl in *.
  apply read_only_app; assumption.
Qed.

Lemma quiet_attempt {A} (body : M W A) (rest : A -> M W outcome) :
  quiet body -> (forall a, quiet (rest a)) -> quiet (attempt body rest).
Proof.
  intros Hm Hk. unfold attempt.
  apply quiet_bind.
  - apply quiet_except.
    + apply quiet_bind; [assumption | intro; apply quiet_ret].
    + intro; apply quiet_ret.
  - intros [a|o]; [apply Hk | apply quiet_ret].
Qed.

Lemma quiet_guarded (body : M W outcome) : quiet body -> quiet (guarded body).
Proof.
  intro H. unfold guarded. apply quiet_except; [assumption | intro; apply quiet_ret].
Qed.

Ltac quiet_step :=
  match goal with
  | |- quiet (ret _) => apply quiet_ret
  | |- quiet (raise _) => apply quiet_raise
  | |- quiet (lift _) => apply quiet_lift
  | |- quiet (display _) => apply quiet_display
  | |- quiet (time_sleep _) => apply quiet_sleep
  | |- quiet (client _ GET _ _) => apply quiet_get
  | |- quiet (bind _ _) => apply quiet_bind; [ | intro ]
  | |- quiet (attempt _ _) => apply quiet_attempt; [ | intro ]
  | |- quiet (guarded _) => apply quiet_guarded
  | |- quiet (except_APIError _ _) => apply quiet_except; [ | intro ]
  | |- quiet (except_ResourceNotFoundError _ _) => apply quiet_except_not_found
  | |- quiet (if ?b then _ else _) => destruct b
  | |- quiet (match ?x with _ => _ end) => destruct x
  end.

Ltac quiet_auto := repeat quiet_step.

Lemma quiet_status_loop nm retries seconds attempts :
  quiet (status_loop gw nm retries seconds attempts).
Proof.
  induction attempts as [|i rest IH]; simpl.
  - apply quiet_ret.
  - quiet_auto. apply IH.
Qed.

Lemma quiet_get_status_install self : quiet (get_status_install gw self).
Proof.
  unfold get_status_install. quiet_auto. apply quiet_status_loop.
Qed.

Lemma quiet_get_mac self : quiet (get_mac gw self).
Proof. unfold get_mac. quiet_auto. Qed.

Lemma quiet_dedicated_each l acc : quiet (dedicated_each gw l acc).
Proof.
  revert acc. induction l as [|i rest IH]; intro acc; simpl.
  - apply quiet_ret.
  - quiet_auto. apply IH.
Qed.

Lemma quiet_list_service self : quiet (list_service gw self).
Proof.
  unfold list_service, list_dedicated, list_templates. quiet_auto.
  apply quiet_dedicated_each.
Qed.

Lemma bind_change_or_quiet {A} (m : M W A) (k_sim k_real : A -> M W outcome) w :
  quiet m ->
  (forall a w1, reports_change (k_sim a w1) \/ read_only (events_of (k_real a w1))) ->
  reports_change (bind m k_sim w) \/ read_only (events_of (bind m k_real w)).
Proof.
  intros Hm Hk. specialize (Hm w). unfold bind, emit, events_of, reports_change, result_of in *.
  destruct (m w) as [[[a|e] w1] e1]; simpl in *; auto.
  destruct (Hk a w1) as [[result H]|H].
  - left. exists result. destruct (k_sim a w1) as [[r w2] e2]. exact H.
  - right. destruct (k_real a w1) as [[r w2] e2]. simpl in *.
    apply read_only_app; assumption.
Qed.

Lemma attempt_change_or_quiet {A} (body : M W A) (k_sim k_real : A -> M W outcome) w :
  quiet body ->
  (forall a w1, reports_change (k_sim a w1) \/ read_only (events_of (k_real a w1))) ->
  reports_change (attempt body k_sim w) \/ read_only (events_of (attempt body k_real w)).
Proof.
  intros Hm Hk. unfold attempt. apply bind_change_or_quiet.
  - apply quiet_except; [ | intro; apply quiet_ret ].
    apply quiet_bind; [ assumption | intro; apply quiet_ret ].
  - intros [a|o] w1; [ apply Hk | right; reflexivity ].
Qed.

Ltac settled :=
  solve [ right; reflexivity
        | left; eexists; reflexivity ].

Lemma change_or_quiet_dns p w :
  reports_change (change_dns gw (simulated p) w) \/
  read_only (events_of (change_dns gw (applied p) w)).
Proof.
  unfold change_dns; simpl.
  destruct (truthy_str (domain p)); simpl; [ | settled ].
  destruct (name p =? "refresh"); settled.
Qed.

Lemma change_or_quiet_terminate p w :
  reports_change (terminate_server gw (simulated p) w) \/
  read_only (events_of (terminate_server gw (applied p) w)).
Proof.
  unfold terminate_server; simpl.
  destruct (name p =? EmptyString); settled.
Qed.

Lemma change_or_quiet_install p w :
  reports_change (launch_install gw (simulated p) w) \/
  read_only (events_of (launch_install gw (applied p) w)).
Proof.
  unfold launch_install; simpl.
  destruct (name p =? EmptyString); [ settled | ].
  destruct (truthy_str (template p)); simpl; [ | settled ].
  destruct (truthy_str (hostname p)); simpl; [ | settled ].
  apply attempt_change_or_quiet.
  - quiet_auto.
  - intros [|] w1; simpl; settled.
Qed.

Lemma change_or_quiet_monitoring p w :
  reports_change (change_monitoring gw (simulated p) w) \/
  read_only (events_of (change_monitoring gw (applied p) w)).
Proof.
  unfold change_monitoring; simpl.
  destruct (name p =? EmptyString); [ settled | ].
  destruct (state p =? EmptyString); [ settled | ].
  destruct ((state p =? "present") || (state p =? "absent")); simpl; settled.
Qed.

Lemma change_or_quiet_reverse p w :
  reports_change (change_reverse gw (simulated p) w) \/
  read_only (events_of (change_reverse gw (applied p) w)).
Proof.
  unfold change_reverse; simpl.
  destruct (truthy_str (domain p)); simpl; [ | settled ].
  destruct (truthy_str (ip p)); simpl; [ | settled ].
  apply bind_change_or_quiet; [ quiet_auto | ].
  intros result w1.
  apply bind_change_or_quiet; [ quiet_auto | ].
  intros reverse w2.
  destruct (py_eq_str reverse _); settled.
Qed.

Lemma change_or_quiet_boot p w :
  reports_change (change_boot_dedicated gw (simulated p) w) \/
  read_only (events_of (change_boot_dedicated gw (applied p) w)).
Proof. unfold change_boot_dedicated; simpl. settled. Qed.

Lemma change_or_quiet_template p w :
  reports_change (generate_template gw yaml_load literal_eval (simulated p) w) \/
  read_only (events_of (generate_template gw yaml_load literal_eval (applied p) w)).
Proof.
  unfold generate_template; simpl.
  destruct (truthy_str (template p)); simpl; settled.
Qed.

Lemma change_or_quiet_vrack p w :
  reports_change (change_vrack gw (simulated p) w) \/
  read_only (events_of (change_vrack gw (applied p) w)).
Proof.
  unfold change_vrack; simpl.
  destruct (truthy_str (vrack p)); simpl; [ | settled ].
  destruct ((state p =? "present") || (state p =? "absent")); simpl; settled.
Qed.

Lemma change_or_quiet_run p w :
  reports_change (run gw yaml_load literal_eval (simulated p) w) \/
  read_only (events_of (run gw yaml_load literal_eval (applied p) w)).
Proof.
  unfold run; simpl.
  destruct (service p =? "dns"); [ apply change_or_quiet_dns | ].
  destruct (service p =? "getmac"); [ right; apply quiet_get_mac | ].
  destruct (service p =? "terminate"); [ apply change_or_quiet_terminate | ].
  destruct (service p =? "status"); [ right; apply quiet_get_status_install | ].
  destruct (service p =? "install"); [ apply change_or_quiet_install | ].
  destruct (service p =? "monitoring"); [ apply change_or_quiet_monitoring | ].
  destruct (service p =? "reverse"); [ apply change_or_quiet_reverse | ].
  destruct (service p =? "list"); [ right; apply quiet_list_service | ].
  destruct (service p =? "boot"); [ apply change_or_quiet_boot | ].
  destruct (service p =? "template"); [ apply change_or_quiet_template | ].
  destruct (service p =? "vrack"); [ apply change_or_quiet_vrack | ].
  right; reflexivity.
Qed.

Lemma quiet_simulated_run p : quiet (run gw yaml_load literal_eval (simulated p)).
Proof.
  unfold run; simpl.
  destruct (service p =? "dns").
  { unfold change_dns; simpl. quiet_auto. }
  destruct (service p =? "getmac"); [ apply quiet_get_mac | ].
  destruct (service p =? "terminate").
  { unfold terminate_server; simpl. quiet_auto. }
  destruct (service p =? "status"); [ apply quiet_get_status_install | ].
  destruct (service p =? "install").
  { unfold launch_install; simpl. quiet_auto. }
  destruct (service p =? "monitoring").
  { unfold change_monitoring; simpl. quiet_auto. }
  destruct (service p =? "reverse").
  { unfold change_reverse; simpl. quiet_auto. }
  destruct (service p =? "list"); [ apply quiet_list_service | ].
  destruct (service p =? "boot").
  { unfold change_boot_dedicated; simpl. quiet_auto. }
  destruct (service p =? "template").
  { unfold generate_template; simpl. quiet_auto. }
  destruct (service p =? "vrack").
  { unfold change_vrack; simpl. quiet_auto. }
  apply quiet_raise.
Qed.

(** C3.  For every service, a run in check mode issues no [post], [put] or
    [delete]; and whenever the same request, applied for real from the same
    remote state, would issue a mutating call (a decision that is not a
    no-op), the simulated run ends in success with [changed=True]. *)
Theorem simulate_issues_no_mutating_call (p : params) (w : W) :
  read_only (events_of (run gw yaml_load literal_eval (simulated p) w)) /\
  (existsb mutating (events_of (run gw yaml_load literal_eval (applied p) w)) = true ->
   reports_change (run gw yaml_load literal_eval (simulated p) w)).
Proof.
  split.
  - apply quiet_simulated_run.
  - intro Hmut. destruct (change_or_quiet_run p w) as [H|H]; [ exact H | ].
    exfalso. exact (read_only_not_mutating _ H Hmut).
Qed.

Lemma emit_nil {A} (x : res A * W * list event) : emit [] x = x.
Proof. destruct x as [[r w] e]. reflexivity. Qed.


Lemma events_of_emit {A} e1 (x : res A * W * list event) :
  events_of (emit e1 x) = (e1 ++ events_of x)%list.
Proof. destruct x as [[r w] e]. reflexivity. Qed.

Lemma result_of_emit {A} e1 (x : res A * W * list event) :
  result_of (emit e1 x) = result_of x.
Proof. destruct x as [[r w] e]. reflexivity. Qed.

Lemma bind_lift_ok {A B} (a : A) (k : A -> M W B) w : bind (lift (Ok a)) k w = k a w.
Proof. unfold bind, lift. apply emit_nil. Qed.

Lemma bind_lift_raise {A B} e (k : A -> M W B) w :
  bind (lift (Raise e)) k w = (Raise e, w, []).
Proof. reflexivity. Qed.

Lemma bind_client {B} m path kw (k : value -> M W B) w :
  bind (client gw m path kw) k w =
  match gw m path kw w with
  | (inl v, w1) => emit [Call m path kw] (k v w1)
  | (inr err, w1) => (Raise (APIError (not_found err) (text err)), w1, [Call m path kw])
  end.
Proof.
  unfold bind, client. destruct (gw m path kw w) as [[v|err] w1]; reflexivity.
Qed.

Lemma attempt_run {A} (body : M W A) (rest : A -> M W outcome) w :
  attempt body rest w =
  match body w with
  | (Ok a, w1, e1) => emit e1 (rest a w1)
  | (Raise (APIError _ msg), w1, e1) => (Ok (api_failure msg), w1, e1)
  | (Raise e, w1, e1) => (Raise e, w1, e1)
  end.
Proof.
  unfold attempt, bind, except_APIError, ret.
  destruct (body w) as [[[a|e] w1] e1]; simpl.
  - rewrite app_nil_r. reflexivity.
  - destruct e; simpl; try reflexivity.
    rewrite !app_nil_r. reflexivity.
Qed.

Lemma attempt_client m path kw (rest : value -> M W outcome) w :
  attempt (client gw m path kw) rest w =
  match gw m path kw w with
  | (inl v, w1) => emit [Call m path kw] (rest v w1)
  | (inr err, w1) => (Ok (api_failure (text err)), w1, [Call m path kw])
  end.
Proof.
  rewrite attempt_run. unfold client.
  destruct (gw m path kw w) as [[v|err] w1]; reflexivity.
Qed.

Lemma guarded_run (body : M W outcome) w :
  guarded body w =
  match body w with
  | (Raise (APIError _ msg), w1, e1) => (Ok (api_failure msg), w1, e1)
  | other => other
  end.
Proof.
  unfold guarded, except_APIError, ret.
  destruct (body w) as [[[a|e] w1] e1]; simpl; try reflexivity.
  destruct e; simpl; try reflexivity.
  rewrite app_nil_r. reflexivity.
Qed.

(** C10.  Boot kind, not simulated: a [post] is issued only to the reboot
    endpoint, and only when the fetched [bootId] already equals the id the
    requested boot mode maps to and [force_reboot] is set.  When the fetched
    [bootId] differs, the only mutating call is one [put] that updates
    [bootId]; no reboot is requested, whatever [force_reboot] is. *)
Theorem boot_reboot_only_when_already_set (p : params) (w : W) :
  let server := "/dedicated/server/" ++ name p in
  let evs := events_of (change_boot_dedicated gw (applied p) w) in
  (forall path kw, In (Call POST path kw) evs ->
     path = "/dedicated/server/" ++ name p ++ "/reboot" /\
     force_reboot p = true /\
     exists check w1 wanted current,
       gw GET server [] w = (inl check, w1) /\
       bootid_of (boot p) bootid = Ok wanted /\
       py_getitem check "bootId" = Ok current /\
       py_eq_int current wanted = true)
  /\
  (forall check w1 wanted current,
     gw GET server [] w = (inl check, w1) ->
     bootid_of (boot p) bootid = Ok wanted ->
     py_getitem check "bootId" = Ok current ->
     py_eq_int current wanted = false ->
     filter mutating evs = [Call PUT server [("bootId", VInt wanted)]]).
Proof.
  intros server evs. subst evs.
  unfold change_boot_dedicated. cbn [check_mode self_params applied].
  fold server.
  rewrite attempt_client.
  destruct (gw GET server [] w) as [[check|err] w1] eqn:Eget.
  2: { split; [ intros path kw [H|[]]; discriminate | intros; congruence ]. }
  rewrite events_of_emit.
  destruct (bootid_of (boot p) bootid) as [wanted|e] eqn:Ewanted.
  2: { rewrite bind_lift_raise.
       split; [ intros path kw [H|[]]; discriminate | intros; congruence ]. }
  rewrite bind_lift_ok.
  destruct (py_getitem check "bootId") as [current|e] eqn:Ecurrent.
  2: { rewrite bind_lift_raise.
       split; [ intros path kw [H|[]]; discriminate | intros; congruence ]. }
  rewrite bind_lift_ok.
  destruct (py_eq_int current wanted) eqn:Eeq; cbn [negb]; cbv iota.
  - split; [ | intros ? ? ? ? H1 H2 H3 H4; congruence ].
    destruct (force_reboot p) eqn:Eforce; cbv iota.
    + rewrite attempt_client.
      intros path kw Hin.
      assert (path = "/dedicated/server/" ++ name p ++ "/reboot") as ->.
      { destruct (gw POST ("/dedicated/server/" ++ name p ++ "/reboot") [] w1) as [[v|err] w2];
          simpl in Hin; destruct Hin as [H|[H|[]]];
          try discriminate; injection H as <- <-; reflexivity. }
      repeat split. exists check, w1, wanted, current. auto.
    + intros path kw [H|[]]; discriminate.
  - rewrite attempt_client.
    split.
    + intros path kw Hin. exfalso.
      destruct (gw PUT server [("bootId", VInt wanted)] w1) as [[v|err] w2];
        simpl in Hin; destruct Hin as [H|[H|[]]]; discriminate.
    + intros check' w1' wanted' current' H1 H2 H3 H4.
      assert (wanted' = wanted) as -> by congruence.
      destruct (gw PUT server [("bootId", VInt wanted)] w1) as [[v|err] w2]; reflexivity.
Qed.

(** C7.  Vrack kind, [state=present], not simulated: when the per-interface
    probe answers an empty list, the next call is always the read of the
    legacy per-server list of the vrack.  If the server name is in that list
    the run reports [changed=False] (already registered) and stops there;
    otherwise it issues exactly one more call, a [post] of the server name to
    the legacy [dedicatedServer] endpoint. *)
Theorem vrack_empty_probe_consults_legacy_list (p : params) (w w1 : W) :
  let vr := fmt (vrack p) in
  let probe := Call GET ("/dedicated/server/" ++ name p ++ "/virtualNetworkInterface")
                 [("mode", VStr "vrack")] in
  let legacy := Call GET ("/vrack/" ++ vr ++ "/dedicatedServer") [] in
  let add := Call POST ("/vrack/" ++ vr ++ "/dedicatedServer")
               [("dedicatedServer", VStr (name p))] in
  let x := change_vrack gw (applied p) w in
  truthy_str (vrack p) = true ->
  state p = "present" ->
  gw GET ("/dedicated/server/" ++ name p ++ "/virtualNetworkInterface")
    [("mode", VStr "vrack")] w = (inl (VList []), w1) ->
  firstn 2 (events_of x) = [probe; legacy] /\
  (forall v members w2,
     gw GET ("/vrack/" ++ vr ++ "/dedicatedServer") [] w1 = (inl v, w2) ->
     py_iter v = Ok members ->
     if existsb (fun old_server => py_eq_str old_server (name p)) members
     then x = (Ok (already_registered (name p) vr), w2, [probe; legacy])
     else events_of x = [probe; legacy; add] /\
          match gw POST ("/vrack/" ++ vr ++ "/dedicatedServer")
                  [("dedicatedServer", VStr (name p))] w2 with
          | (inl result2, _) => result_of x = Ok (succeed VNone true result2 VNone)
          | (inr err, _) => result_of x = Ok (api_failure (text err))
          end).
Proof.
  intros vr probe legacy add x Hvrack Hstate Hprobe. subst x.
  unfold change_vrack. cbn [check_mode self_params applied].
  rewrite Hvrack, Hstate. cbn [negb String.eqb Ascii.eqb Bool.eqb orb andb]. cbv iota.
  fold vr.
  rewrite attempt_client, Hprobe.
  cbn [py_len length]. rewrite bind_lift_ok. cbn [Nat.eqb negb]. cbv iota.
  rewrite attempt_client.
  destruct (gw GET ("/vrack/" ++ vr ++ "/dedicatedServer") [] w1) as [[v|err] w2] eqn:Elegacy.
  2: { split; [ reflexivity | intros; discriminate ]. }
  split.
  - rewrite !events_of_emit. reflexivity.
  - intros v' members w2' Hv Hiter. injection Hv as <- <-.
    rewrite Hiter, bind_lift_ok.
    destruct (existsb _ members); [ reflexivity | ].
    rewrite guarded_run, bind_client.
    destruct (gw POST _ _ w2) as [[result2|err] w3]; split; reflexivity.
Qed.

Lemma range1_length n : List.length (range1 n) = Z.to_nat (n - 1).
Proof. unfold range1. rewrite length_map, length_seq. reflexivity. Qed.




Lemma bind_run {A B} (m : M W A) (k : A -> M W B) w :
  bind m k w =
  match m w with
  | (Ok a, w1, e1) => emit e1 (k a w1)
  | (Raise e, w1, e1) => (Raise e, w1, e1)
  end.
Proof. reflexivity. Qed.

Lemma record_is_raises record nm ipaddr e :
  record_is record nm ipaddr = Raise e -> e = AttributeError.
Proof.
  unfold record_is, py_get, rbind.
  destruct record; try (intro H; injection H as <-; reflexivity).
  destruct (lookup "subDomain" d) as [sub|];
    (destruct (py_eq_str _ nm); [ destruct (lookup "target" d) | ]); discriminate.
Qed.

Lemma dns_scan_step dom nm ipaddr ind rest w :
  dns_scan gw dom nm ipaddr (ind :: rest) w =
  match gw GET (record_path dom ind) [] w with
  | (inl record, w1) =>
      match record_is record nm ipaddr with
      | Ok true =>
          (Ok (Some (succeed_msg (nm ++ " is already registered in domain " ++ dom) false)),
           w1, [Call GET (record_path dom ind) []])
      | Ok false => emit [Call GET (record_path dom ind) []] (dns_scan gw dom nm ipaddr rest w1)
      | Raise _ => (Raise AttributeError, w1, [Call GET (record_path dom ind) []])
      end
  | (inr err, w1) =>
      (Ok (Some (api_failure (text err))), w1, [Call GET (record_path dom ind) []])
  end.
Proof.
  cbn [dns_scan]. unfold bind, except_APIError, client, lift, ret.
  destruct (gw GET (record_path dom ind) [] w) as [[record|err] w1]; cbn [emit app].
  - destruct (record_is record nm ipaddr) as [[|]|e] eqn:E; cbn [emit app].
    + reflexivity.
    + destruct (dns_scan gw dom nm ipaddr rest w1) as [[r w2] e2]. reflexivity.
    + rewrite (record_is_raises _ _ _ _ E). reflexivity.
  - reflexivity.
Qed.

Lemma dns_scan_verdict dom nm ipaddr ids w :
  read_only (events_of (dns_scan gw dom nm ipaddr ids w)) /\
  match result_of (dns_scan gw dom nm ipaddr ids w) with
  | Ok None => True
  | Ok (Some o) =>
      error_of o <> None \/
      o = succeed_msg (nm ++ " is already registered in domain " ++ dom) false
  | Raise e => e = AttributeError
  end.
Proof.
  revert w. induction ids as [|ind rest IH]; intro w.
  - split; [ reflexivity | exact I ].
  - rewrite dns_scan_step.
    destruct (gw GET (record_path dom ind) [] w) as [[record|err] w1].
    + destruct (record_is record nm ipaddr) as [[|]|e].
      * split; [ reflexivity | right; reflexivity ].
      * rewrite events_of_emit, result_of_emit.
        destruct (IH w1) as [Hq Hr]. split; [ | exact Hr ].
        apply read_only_app; [ reflexivity | exact Hq ].
      * split; reflexivity.
    + split; [ reflexivity | left; discriminate ].
Qed.








Lemma prefix_app_cancel a s t : prefix (a ++ s) (a ++ t) = prefix s t.
Proof.
  induction a as [|c a IH]; simpl; [ reflexivity | ].
  destruct (ascii_dec c c) as [_|H]; [ exact IH | contradiction H; reflexivity ].
Qed.

Lemma prefix_app s t : prefix s (s ++ t) = true.
Proof.
  induction s as [|c s IH]; simpl; [ destruct t; reflexivity | ].
  destruct (ascii_dec c c) as [_|H]; [ exact IH | contradiction H; reflexivity ].
Qed.

Lemma status_fetches_app nm e1 e2 :
  status_fetches nm (e1 ++ e2) = status_fetches nm e1 + status_fetches nm e2.
Proof. unfold status_fetches. rewrite filter_app, length_app. reflexivity. Qed.

Lemma sleeps_app e1 e2 : sleeps (e1 ++ e2) = (sleeps e1 ++ sleeps e2)%list.
Proof. apply filter_app. Qed.

Lemma task_path_is_no_status_fetch nm :
  prefix ("/dedicated/server/" ++ nm ++ "/task/") ("/dedicated/server/" ++ nm ++ "/task") = false.
Proof. rewrite !prefix_app_cancel. reflexivity. Qed.

Lemma progress_path_is_no_status_fetch nm :
  prefix ("/dedicated/server/" ++ nm ++ "/task/")
    ("/dedicated/server/" ++ nm ++ "/install/status") = false.
Proof. rewrite !prefix_app_cancel. reflexivity. Qed.

Lemma status_path_is_status_fetch nm id :
  prefix ("/dedicated/server/" ++ nm ++ "/task/")
    ("/dedicated/server/" ++ nm ++ "/task/" ++ id) = true.
Proof.
  rewrite !prefix_app_cancel. apply (prefix_app "/task/" id).
Qed.

Lemma status_loop_waiting nm retries seconds secs i rest w w' status message :
  py_float seconds = Ok secs ->
  (0 <= seconds)%Z ->
  waiting_round gw nm w w' status message ->
  exists evs,
    status_loop gw nm retries seconds (i :: rest) w =
      emit evs (status_loop gw nm retries seconds rest w') /\
    sleeps evs = [Sleep secs] /\
    status_fetches nm evs = 1.
Proof.
  intros Hfloat Hpos (tasklist & newest & result & progress_status & w1 & w2 &
          Htasks & Hmax & Hresult & Hstatus & Hdone & Hprogress & Hmessage).
  exists [Display (str_of_Z i ++ " out of " ++ str_of_Z retries);
          Call GET ("/dedicated/server/" ++ nm ++ "/task") [("function", VStr "reinstallServer")];
          Call GET ("/dedicated/server/" ++ nm ++ "/task/" ++ py_str newest) [];
          Call GET ("/dedicated/server/" ++ nm ++ "/install/status") [];
          Display (py_str status ++ ": " ++ py_str message);
          Sleep secs].
  split; [ | split ].
  - cbn [status_loop].
    unfold bind at 1. cbn [display].
    rewrite bind_run. unfold except_APIError. rewrite bind_client, Htasks.
    rewrite Hmax, bind_lift_ok, bind_client, Hresult.
    cbn [emit ret app].
    rewrite Hstatus, bind_lift_ok, Hdone, bind_lift_ok.
    rewrite bind_client, Hprogress, Hmessage, bind_lift_ok.
    unfold bind, display. rewrite (time_sleep_run _ _ _ Hfloat Hpos).
    destruct (status_loop gw nm retries seconds rest w') as [[r w3] e3].
    cbn [emit app]. reflexivity.
  - reflexivity.
  - unfold status_fetches. cbn [filter].
    rewrite task_path_is_no_status_fetch, progress_path_is_no_status_fetch,
      status_path_is_status_fetch.
    reflexivity.
Qed.

Lemma status_loop_done nm retries seconds i rest w w' status :
  done_round gw nm w w' status ->
  exists evs,
    status_loop gw nm retries seconds (i :: rest) w =
      (Ok (Some (succeed_msg (py_str status ++ ": ") false)), w', evs) /\
    sleeps evs = [] /\
    status_fetches nm evs = 1.
Proof.
  intros (tasklist & newest & result & w1 & Htasks & Hmax & Hresult & Hstatus & Hdone).
  exists [Display (str_of_Z i ++ " out of " ++ str_of_Z retries);
          Call GET ("/dedicated/server/" ++ nm ++ "/task") [("function", VStr "reinstallServer")];
          Call GET ("/dedicated/server/" ++ nm ++ "/task/" ++ py_str newest) []].
  split; [ | split ].
  - cbn [status_loop].
    unfold bind at 1. cbn [display].
    rewrite bind_run. unfold except_APIError. rewrite bind_client, Htasks.
    rewrite Hmax, bind_lift_ok, bind_client, Hresult.
    cbn [emit ret app].
    rewrite Hstatus, bind_lift_ok, Hdone, bind_lift_ok.
    reflexivity.
  - reflexivity.
  - unfold status_fetches. cbn [filter].
    rewrite task_path_is_no_status_fetch, status_path_is_status_fetch.
    reflexivity.
Qed.




Lemma status_loop_done_after nm retries seconds secs w' status k w :
  py_float seconds = Ok secs ->
  (0 <= seconds)%Z ->
  done_after gw nm w' status k w ->
  forall attempts, k < List.length attempts ->
  exists evs,
    status_loop gw nm retries seconds attempts w =
      (Ok (Some (succeed_msg (py_str status ++ ": ") false)), w', evs) /\
    sleeps evs = repeat (Sleep secs) k /\
    status_fetches nm evs = S k.
Proof.
  intros Hfloat Hpos.
  induction 1 as [w Hround | k w w1 s m Hround Hrest IH]; intros attempts Hlen.
  - destruct attempts as [|i rest]; [ cbn in Hlen; lia | ].
    exact (status_loop_done nm retries seconds i rest _ _ _ Hround).
  - destruct attempts as [|i rest]; [ cbn in Hlen; lia | ].
    destruct (status_loop_waiting nm retries seconds secs i rest _ _ _ _ Hfloat Hpos Hround)
      as (evs & -> & Hsleeps & Hfetches).
    destruct (IH rest) as (evs' & -> & Hsleeps' & Hfetches').
    { cbn in Hlen. lia. }
    exists (evs ++ evs')%list. split; [ reflexivity | split ].
    + rewrite sleeps_app, Hsleeps, Hsleeps'. reflexivity.
    + rewrite status_fetches_app, Hfetches, Hfetches'. reflexivity.
Qed.

(** The poll as the code runs it: a status that is done on fetch [k+1] is
    reached, after exactly [k+1] fetches and [k] sleeps, as soon as
    [max_retry > k + 1] (with a delay that [time.sleep] accepts). *)
Theorem status_poll_succeeds_within_range (p : params) (secs : Z) (w w' : W) status k :
  let x := get_status_install gw (applied p) w in
  name p <> EmptyString ->
  py_float (sleep p) = Ok secs ->
  (0 <= sleep p)%Z ->
  done_after gw (name p) w' status k w ->
  (Z.of_nat k + 1 < max_retry p)%Z ->
  result_of x = Ok (succeed_msg (py_str status ++ ": ") false) /\
  status_fetches (name p) (events_of x) = S k /\
  sleeps (events_of x) = repeat (Sleep secs) k.
Proof.
  intros x Hname Hfloat Hpos Hdone Hretry. subst x.
  unfold get_status_install. cbn [check_mode self_params applied].
  apply String.eqb_neq in Hname. rewrite Hname.
  destruct (status_loop_done_after (name p) (max_retry p) (sleep p) secs _ _ _ _
              Hfloat Hpos Hdone
              (range1 (max_retry p))) as (evs & Hrun & Hsleeps & Hfetches).
  { rewrite range1_length. lia. }
  rewrite bind_run, Hrun.
  cbn [emit ret events_of result_of fst snd]. rewrite app_nil_r.
  auto.
Qed.



(** X1.  DNS kind, [state=present], not simulated: when the lookup of the
    zone answers no record, the run issues exactly one more call, the [post]
    of an A record with the name and the desired target, and reports
    [changed=True] with the answer as contents, or the failure the [post]
    raised. *)
Theorem dns_empty_zone_creates_record (p : params) (w w1 : W) existing :
  let dom := fmt (domain p) in
  let lookup_call := Call GET ("/domain/zone/" ++ dom ++ "/record")
                       [("fieldType", VStr "A"); ("subDomain", VStr (name p))] in
  let create := [("fieldType", VStr "A"); ("subDomain", VStr (name p));
                 ("target", VStr (fmt (ip p)))] in
  let x := change_dns gw (applied p) w in
  truthy_str (domain p) = true ->
  name p <> "refresh" ->
  state p = "present" ->
  truthy_str (ip p) = true ->
  gw GET ("/domain/zone/" ++ dom ++ "/record")
    [("fieldType", VStr "A"); ("subDomain", VStr (name p))] w = (inl existing, w1) ->
  truthy existing = false ->
  events_of x = [lookup_call; Call POST ("/domain/zone/" ++ dom ++ "/record") create] /\
  match gw POST ("/domain/zone/" ++ dom ++ "/record") create w1 with
  | (inl result, _) => result_of x = Ok (succeed VNone true result VNone)
  | (inr err, _) => result_of x = Ok (api_failure (text err))
  end.
Proof.
  intros dom lookup_call create x Hdomain Hname Hstate Hip Hget Hfalsy. subst x.
  unfold change_dns. cbn [check_mode self_params applied].
  apply String.eqb_neq in Hname.
  rewrite Hdomain, Hname, Hstate, Hip.
  cbn [negb String.eqb Ascii.eqb Bool.eqb]. cbv iota.
  fold dom.
  rewrite attempt_client, Hget, Hfalsy, guarded_run, bind_client.
  fold create.
  destruct (gw POST _ create w1) as [[result|err] w2]; split; reflexivity.
Qed.

(** X2.  DNS kind, [state=present], not simulated: when the lookup answers
    exactly one record and that record differs from the desired one, the run
    fetches it and then issues one [put] on that record with the name and
    the desired target; it reports [changed=True], or the failure the [put]
    raised. *)
Theorem dns_single_stale_record_is_updated (p : params) (w w1 w2 : W) ind record :
  let dom := fmt (domain p) in
  let lookup_call := Call GET ("/domain/zone/" ++ dom ++ "/record")
                       [("fieldType", VStr "A"); ("subDomain", VStr (name p))] in
  let update := [("subDomain", VStr (name p)); ("target", VStr (fmt (ip p)))] in
  let x := change_dns gw (applied p) w in
  truthy_str (domain p) = true ->
  name p <> "refresh" ->
  state p = "present" ->
  truthy_str (ip p) = true ->
  gw GET ("/domain/zone/" ++ dom ++ "/record")
    [("fieldType", VStr "A"); ("subDomain", VStr (name p))] w = (inl (VList [ind]), w1) ->
  gw GET (record_path dom ind) [] w1 = (inl record, w2) ->
  record_is record (name p) (fmt (ip p)) = Ok false ->
  events_of x = [lookup_call; Call GET (record_path dom ind) [];
                 Call PUT (record_path dom ind) update] /\
  match gw PUT (record_path dom ind) update w2 with
  | (inl _, _) => exists msg, result_of x = Ok (succeed_msg msg true)
  | (inr err, _) => result_of x = Ok (api_failure (text err))
  end.
Proof.
  intros dom lookup_call update x Hdomain Hname Hstate Hip Hget Hrecord Hstale. subst x.
  unfold change_dns. cbn [check_mode self_params applied].
  apply String.eqb_neq in Hname.
  rewrite Hdomain, Hname, Hstate, Hip.
  cbn [negb String.eqb Ascii.eqb Bool.eqb]. cbv iota.
  fold dom.
  rewrite attempt_client, Hget.
  cbn [truthy py_iter py_len py_first List.length]. rewrite bind_lift_ok.
  rewrite bind_run, dns_scan_step, Hrecord, Hstale.
  cbn [dns_scan ret emit app]. rewrite bind_lift_ok.
  cbn [Nat.ltb Nat.leb]. cbv iota.
  rewrite guarded_run, bind_lift_ok, bind_client. fold update.
  destruct (gw PUT (record_path dom ind) update w2) as [[ack|err] w3].
  - split; [ reflexivity | eexists; reflexivity ].
  - split; reflexivity.
Qed.

Lemma dns_delete_each_prefix dom ids acc w :
  exists k,
    filter mutating (events_of (dns_delete_each gw dom ids acc w)) =
    map (fun ind => Call DELETE (record_path dom ind) []) (firstn k ids).
Proof.
  revert acc w. induction ids as [|ind rest IH]; intros acc w.
  - exists 0. reflexivity.
  - cbn [dns_delete_each]. rewrite bind_client.
    destruct (gw GET (record_path dom ind) [] w) as [[record|err] w1].
    2: { exists 0. reflexivity. }
    rewrite events_of_emit, bind_client.
    destruct (gw DELETE (record_path dom ind) [] w1) as [[ack|err] w2].
    2: { exists 1. reflexivity. }
    rewrite events_of_emit.
    destruct (py_get record "subDomain") as [sub|e].
    2: { exists 1. reflexivity. }
    rewrite bind_lift_ok.
    destruct (py_get record "target") as [tgt|e].
    2: { exists 1. reflexivity. }
    rewrite bind_lift_ok.
    destruct (IH (app acc [py_str sub ++ " IN A " ++ py_str tgt]) w2) as [k Hk].
    exists (S k). cbn [app filter mutating firstn map]. rewrite Hk. reflexivity.
Qed.

(** X3.  DNS kind, [state=absent], not simulated: whatever the gateway
    answers, the mutating calls of the run are [delete]s of the records the
    lookup answered, in the order of the lookup and without a gap: a first
    part of them.  An error stops the run where it is; what was deleted
    stays deleted. *)
Theorem dns_absent_deletes_a_prefix (p : params) (w w1 : W) existing ids :
  let dom := fmt (domain p) in
  truthy_str (domain p) = true ->
  name p <> "refresh" ->
  state p = "absent" ->
  gw GET ("/domain/zone/" ++ dom ++ "/record")
    [("fieldType", VStr "A"); ("subDomain", VStr (name p))] w = (inl existing, w1) ->
  py_iter existing = Ok ids ->
  exists k,
    filter mutating (events_of (change_dns gw (applied p) w)) =
    map (fun ind => Call DELETE (record_path dom ind) []) (firstn k ids).
Proof.
  intros dom Hdomain Hname Hstate Hget Hiter.
  unfold change_dns. cbn [check_mode self_params applied].
  apply String.eqb_neq in Hname.
  rewrite Hdomain, Hname, Hstate.
  cbn [negb String.eqb Ascii.eqb Bool.eqb]. cbv iota.
  fold dom.
  rewrite attempt_client, Hget, events_of_emit.
  destruct (truthy existing); cbn [negb]; cbv iota.
  2: { exists 0. reflexivity. }
  rewrite guarded_run, Hiter, bind_lift_ok, bind_run.
  destruct (dns_delete_each_prefix dom ids [] w1) as [k Hk].
  exists k. rewrite <- Hk.
  destruct (dns_delete_each gw dom ids [] w1) as [[[deleted|e] w2] e2].
  - cbn. rewrite app_nil_r. reflexivity.
  - destruct e; reflexivity.
Qed.

Lemma dns_delete_each_all dom (sub_of tgt_of : value -> value) ids :
  (forall ind w0, In ind ids ->
     exists record w1 ack w2,
       gw GET (record_path dom ind) [] w0 = (inl record, w1) /\
       gw DELETE (record_path dom ind) [] w1 = (inl ack, w2) /\
       py_get record "subDomain" = Ok (sub_of ind) /\
       py_get record "target" = Ok (tgt_of ind)) ->
  forall acc w,
  exists w' evs,
    dns_delete_each gw dom ids acc w =
      (Ok (app acc (map (fun ind => py_str (sub_of ind) ++ " IN A " ++ py_str (tgt_of ind)) ids)),
       w', evs) /\
    filter mutating evs = map (fun ind => Call DELETE (record_path dom ind) []) ids.
Proof.
  induction ids as [|ind rest IH]; intros Hall acc w.
  - exists w, []. rewrite app_nil_r. split; reflexivity.
  - destruct (Hall ind w (or_introl eq_refl)) as (record & w1 & ack & w2 & Hget & Hdel & Hsub & Htgt).
    destruct (IH (fun i w0 Hin => Hall i w0 (or_intror Hin))
                (app acc [py_str (sub_of ind) ++ " IN A " ++ py_str (tgt_of ind)]) w2)
      as (w' & evs & Hrun & Hevs).
    exists w', (Call GET (record_path dom ind) [] :: Call DELETE (record_path dom ind) [] :: evs).
    split.
    + cbn [dns_delete_each].
      rewrite bind_client, Hget, bind_client, Hdel, Hsub, bind_lift_ok, Htgt, bind_lift_ok, Hrun.
      cbn [emit app map]. rewrite <- app_assoc. reflexivity.
    + cbn [filter mutating map]. rewrite Hevs. reflexivity.
Qed.

(** X4.  DNS kind, [state=absent], not simulated: when every record the
    lookup answered can be fetched and deleted, the run deletes each of them
    once, in the order of the lookup, and reports [changed=True] with one
    "name IN A target" entry per record, joined by commas. *)
Theorem dns_absent_deletes_every_record (p : params) (w w1 : W) ind ids
  (sub_of tgt_of : value -> value) :
  let dom := fmt (domain p) in
  let x := change_dns gw (applied p) w in
  truthy_str (domain p) = true ->
  name p <> "refresh" ->
  state p = "absent" ->
  gw GET ("/domain/zone/" ++ dom ++ "/record")
    [("fieldType", VStr "A"); ("subDomain", VStr (name p))] w = (inl (VList (ind :: ids)), w1) ->
  (forall i w0, In i (ind :: ids) ->
     exists record w2 ack w3,
       gw GET (record_path dom i) [] w0 = (inl record, w2) /\
       gw DELETE (record_path dom i) [] w2 = (inl ack, w3) /\
       py_get record "subDomain" = Ok (sub_of i) /\
       py_get record "target" = Ok (tgt_of i)) ->
  filter mutating (events_of x) =
    map (fun i => Call DELETE (record_path dom i) []) (ind :: ids) /\
  result_of x =
    Ok (succeed_msg
          (join "," (map (fun i => py_str (sub_of i) ++ " IN A " ++ py_str (tgt_of i))
                       (ind :: ids)) ++
           " successfuly deleted from domain " ++ dom) true).
Proof.
  intros dom x Hdomain Hname Hstate Hget Hall. subst x.
  unfold change_dns. cbn [check_mode self_params applied].
  apply String.eqb_neq in Hname.
  rewrite Hdomain, Hname, Hstate.
  cbn [negb String.eqb Ascii.eqb Bool.eqb]. cbv iota.
  fold dom.
  rewrite attempt_client, Hget, events_of_emit, result_of_emit.
  cbn [truthy negb py_iter]. cbv iota.
  rewrite guarded_run, bind_lift_ok, bind_run.
  destruct (dns_delete_each_all dom sub_of tgt_of (ind :: ids) Hall [] w1)
    as (w' & evs & -> & Hevs).
  cbn [emit ret app events_of result_of fst snd]. rewrite app_nil_r.
  split; [ exact Hevs | reflexivity ].
Qed.

(** X5.  DNS kind, not simulated: a request without a domain fails before
    any gateway call; a request to add a record without an IP fails too, but
    only after the lookup of the zone has been issued, and without any
    mutating call. *)
Theorem dns_validation_order (p : params) (w : W) :
  let x := change_dns gw (applied p) w in
  (truthy_str (domain p) = false ->
   x = (Ok (fail "Please give a domain to add your target"), w, [])) /\
  (truthy_str (domain p) = true ->
   name p <> "refresh" ->
   state p = "present" ->
   truthy_str (ip p) = false ->
   events_of x = [Call GET ("/domain/zone/" ++ fmt (domain p) ++ "/record")
                    [("fieldType", VStr "A"); ("subDomain", VStr (name p))]] /\
   exists message, result_of x = Ok (fail message)).
Proof.
  intros x. subst x. split.
  - intros Hdomain. unfold change_dns. cbn [check_mode self_params applied].
    rewrite Hdomain. reflexivity.
  - intros Hdomain Hname Hstate Hip.
    unfold change_dns. cbn [check_mode self_params applied].
    apply String.eqb_neq in Hname.
    rewrite Hdomain, Hname, Hstate, Hip.
    cbn [negb String.eqb Ascii.eqb Bool.eqb]. cbv iota.
    rewrite attempt_client.
    destruct (gw GET _ _ w) as [[existing|err] w1]; split;
      try reflexivity; eexists; reflexivity.
Qed.

Lemma fqdn_not_empty nm dom : py_eq_str (VStr EmptyString) (nm ++ "." ++ dom ++ ".") = false.
Proof. destruct nm; reflexivity. Qed.

Lemma not_found_client_run path (unset : value) w :
  except_ResourceNotFoundError (client gw GET path []) (ret unset) w =
  match gw GET path [] w with
  | (inl v, w1) => (Ok v, w1, [Call GET path []])
  | (inr err, w1) =>
      if not_found err
      then (Ok unset, w1, [Call GET path []])
      else (Raise (APIError false (text err)), w1, [Call GET path []])
  end.
Proof.
  unfold except_ResourceNotFoundError, client.
  destruct (gw GET path [] w) as [[v|[[|] msg]] w1]; reflexivity.
Qed.

(** X6.  Reverse kind, not simulated: a lookup that raises
    [ResourceNotFoundError] counts as a reverse that was never set: the run
    goes on to [post] the reverse, and reports [changed=True], or the failure
    the [post] raised. *)
Theorem reverse_not_found_is_unset (p : params) (w w1 : W) err :
  let ipaddr := fmt (ip p) in
  let fqdn := name p ++ "." ++ fmt (domain p) ++ "." in
  let set := [("ipReverse", VStr ipaddr); ("reverse", VStr fqdn)] in
  let x := change_reverse gw (applied p) w in
  truthy_str (domain p) = true ->
  truthy_str (ip p) = true ->
  gw GET ("/ip/" ++ ipaddr ++ "/reverse/" ++ ipaddr) [] w = (inr err, w1) ->
  not_found err = true ->
  events_of x = [Call GET ("/ip/" ++ ipaddr ++ "/reverse/" ++ ipaddr) [];
                 Call POST ("/ip/" ++ ipaddr ++ "/reverse") set] /\
  match gw POST ("/ip/" ++ ipaddr ++ "/reverse") set w1 with
  | (inl _, _) =>
      result_of x =
      Ok (succeed_msg ("Reverse " ++ ipaddr ++ " to " ++ fqdn ++ " succesfully set !") true)
  | (inr err', _) => result_of x = Ok (api_failure (text err'))
  end.
Proof.
  intros ipaddr fqdn set x Hdomain Hip Hget Hnf. subst x set fqdn ipaddr.
  unfold change_reverse. cbn [check_mode self_params applied].
  rewrite Hdomain, Hip. cbn [negb]. cbv iota.
  rewrite bind_run, not_found_client_run, Hget, Hnf.
  cbn [py_getitem lookup String.eqb Ascii.eqb Bool.eqb].
  rewrite bind_lift_ok, fqdn_not_empty. cbv iota.
  rewrite guarded_run, bind_client.
  destruct (gw POST _ _ w1) as [[ack|err'] w2]; split; reflexivity.
Qed.

(** X7.  Reverse kind: the simulation is exact.  From the same remote state,
    the simulated run reports [changed=True] if and only if the applied run
    issues a mutating call. *)
Theorem reverse_simulation_is_exact (p : params) (w : W) :
  reports_change (change_reverse gw (simulated p) w) <->
  existsb mutating (events_of (change_reverse gw (applied p) w)) = true.
Proof.
  split.
  - unfold change_reverse. cbn [check_mode self_params applied simulated].
    destruct (truthy_str (domain p)); cbn [negb]; cbv iota;
      [ | intros [r H]; discriminate ].
    destruct (truthy_str (ip p)); cbn [negb]; cbv iota;
      [ | intros [r H]; discriminate ].
    rewrite !bind_run.
    destruct (except_ResourceNotFoundError _ _ w) as [[[result|e] w1] e1];
      [ | intros [r H]; discriminate ].
    unfold reports_change. rewrite result_of_emit, events_of_emit.
    destruct (py_getitem result "reverse") as [reverse|e];
      [ | intros [r H]; discriminate ].
    rewrite !bind_lift_ok.
    destruct (py_eq_str reverse _); [ intros [r H]; discriminate | ].
    intros _. cbv iota. rewrite guarded_run, bind_client, existsb_app.
    destruct (gw POST _ _ w1) as [[ack|err] w2]; cbn; apply orb_true_r.
  - intro Hwrite. destruct (change_or_quiet_reverse p w) as [H|H]; [ exact H | ].
    exfalso. exact (read_only_not_mutating _ H Hwrite).
Qed.

Lemma read_only_writes evs : read_only evs -> writes evs = 0.
Proof.
  unfold read_only, writes. induction evs as [|e evs IH]; simpl; [ reflexivity | ].
  intro H. apply andb_prop in H. destruct H as [He Hr].
  destruct (mutating e); [ discriminate | auto ].
Qed.

Lemma writes_app e1 e2 : writes (e1 ++ e2) = writes e1 + writes e2.
Proof. unfold writes. rewrite filter_app, length_app. reflexivity. Qed.

Lemma quiet_single_write {A} (m : M W A) : quiet m -> single_write m.
Proof. intros H w. rewrite (read_only_writes _ (H w)). auto. Qed.

Lemma single_write_client m path kw : single_write (client gw m path kw).
Proof.
  intro w. unfold events_of. rewrite client_events.
  unfold writes. cbn [filter]. destruct (mutating (Call m path kw)); cbn; auto.
Qed.

Lemma single_write_after_quiet {A B} (m : M W A) (k : A -> M W B) :
  quiet m -> (forall a, single_write (k a)) -> single_write (bind m k).
Proof.
  intros Hm Hk w. specialize (Hm w). apply read_only_writes in Hm.
  rewrite bind_run. destruct (m w) as [[[a|e] w1] e1]; cbn [events_of snd] in Hm.
  - rewrite events_of_emit, writes_app, Hm. exact (Hk a w1).
  - cbn [events_of snd]. rewrite Hm. auto.
Qed.

Lemma single_write_then_quiet {A B} (m : M W A) (k : A -> M W B) :
  single_write m -> (forall a, quiet (k a)) -> single_write (bind m k).
Proof.
  intros Hm Hk w. specialize (Hm w).
  rewrite bind_run. destruct (m w) as [[[a|e] w1] e1]; cbn [events_of snd] in Hm.
  - pose proof (read_only_writes _ (Hk a w1)) as Hq.
    rewrite events_of_emit, writes_app, Hq. lia.
  - exact Hm.
Qed.

Lemma single_write_guarded (body : M W outcome) : single_write body -> single_write (guarded body).
Proof.
  intros H w. specialize (H w). rewrite guarded_run.
  destruct (body w) as [[[o|e] w1] e1]; [ exact H | ].
  destruct e; exact H.
Qed.

Lemma single_write_attempt_after_quiet {A} (body : M W A) (rest : A -> M W outcome) :
  quiet body -> (forall a, single_write (rest a)) -> single_write (attempt body rest).
Proof.
  intros Hm Hk w. specialize (Hm w). apply read_only_writes in Hm.
  rewrite attempt_run. destruct (body w) as [[[a|e] w1] e1]; cbn [events_of snd] in Hm.
  - rewrite events_of_emit, writes_app, Hm. exact (Hk a w1).
  - destruct e; cbn [events_of snd]; rewrite Hm; auto.
Qed.

Lemma single_write_attempt_then_quiet {A} (body : M W A) (rest : A -> M W outcome) :
  single_write body -> (forall a, quiet (rest a)) -> single_write (attempt body rest).
Proof.
  intros Hm Hk w. specialize (Hm w).
  rewrite attempt_run. destruct (body w) as [[[a|e] w1] e1]; cbn [events_of snd] in Hm.
  - pose proof (read_only_writes _ (Hk a w1)) as Hq.
    rewrite events_of_emit, writes_app, Hq. lia.
  - destruct e; exact Hm.
Qed.

Lemma quiet_dns_scan dom nm ipaddr ids : quiet (dns_scan gw dom nm ipaddr ids).
Proof. intro w. exact (proj1 (dns_scan_verdict dom nm ipaddr ids w)). Qed.

Ltac quiet_solve :=
  solve [ repeat (quiet_step || apply quiet_dns_scan || apply quiet_dedicated_each
                  || apply quiet_status_loop) ].

Ltac single_step :=
  match goal with
  | |- single_write (client _ _ _ _) => apply single_write_client
  | |- single_write (guarded _) => apply single_write_guarded
  | |- single_write (if ?b then _ else _) => destruct b
  | |- single_write (match ?x with _ => _ end) => destruct x
  | |- single_write (bind _ _) =>
      first [ apply single_write_after_quiet; [ quiet_solve | intro ]
            | apply single_write_then_quiet; [ | intro; quiet_solve ] ]
  | |- single_write (attempt _ _) =>
      first [ apply single_write_attempt_after_quiet; [ quiet_solve | intro ]
            | apply single_write_attempt_then_quiet; [ | intro; quiet_solve ] ]
  | |- single_write _ => apply quiet_single_write; quiet_solve
  end.

Ltac single_auto := repeat single_step.

(** X8.  One corrective write per run: whatever the gateway answers and in
    either mode, a run issues at most one mutating call, for every service
    but the three that work through a list or a poll: the removal of DNS
    records, the monitoring poll and the template. *)
Theorem one_write_per_run (self : OVHModule) (w : W) :
  service (self_params self) <> "monitoring" ->
  service (self_params self) <> "template" ->
  (service (self_params self) = "dns" -> state (self_params self) <> "absent") ->
  writes (events_of (run gw yaml_load literal_eval self w)) <= 1.
Proof.
  intros Hmonitoring Htemplate Hdns. revert w.
  change (single_write (run gw yaml_load literal_eval self)).
  unfold run.
  destruct (service (self_params self) =? "dns") eqn:Edns.
  { apply String.eqb_eq in Edns. specialize (Hdns Edns).
    apply String.eqb_neq in Hdns.
    unfold change_dns. rewrite Hdns. single_auto. }
  destruct (service (self_params self) =? "getmac").
  { apply quiet_single_write, quiet_get_mac. }
  destruct (service (self_params self) =? "terminate").
  { unfold terminate_server. single_auto. }
  destruct (service (self_params self) =? "status").
  { apply quiet_single_write, quiet_get_status_install. }
  destruct (service (self_params self) =? "install").
  { unfold launch_install. single_auto. }
  destruct (service (self_params self) =? "monitoring") eqn:Emon.
  { apply String.eqb_eq in Emon. contradiction. }
  destruct (service (self_params self) =? "reverse").
  { unfold change_reverse. single_auto. }
  destruct (service (self_params self) =? "list").
  { apply quiet_single_write, quiet_list_service. }
  destruct (service (self_params self) =? "boot").
  { unfold change_boot_dedicated. single_auto. }
  destruct (service (self_params self) =? "template") eqn:Etpl.
  { apply String.eqb_eq in Etpl. contradiction. }
  destruct (service (self_params self) =? "vrack").
  { unfold change_vrack. single_auto. }
  apply quiet_single_write, quiet_raise.
Qed.

(** X9.  In check mode the DNS, terminate, status, monitoring, boot,
    template and vrack services return without any gateway call, reads
    included, and leave the remote state as it is: what they report does not
    depend on the remote state. *)
Theorem simulation_without_gateway (p : params) (w : W) :
  In (service p) ["dns"; "terminate"; "status"; "monitoring"; "boot"; "template"; "vrack"] ->
  exists o, run gw yaml_load literal_eval (simulated p) w = (Ok o, w, []).
Proof.
  intros [H|[H|[H|[H|[H|[H|[H|[]]]]]]]]; unfold run; cbn [check_mode self_params simulated];
    rewrite <- H; cbn [String.eqb Ascii.eqb Bool.eqb]; cbv iota.
  - unfold change_dns. cbn [check_mode self_params simulated].
    destruct (truthy_str (domain p)); cbn [negb]; cbv iota; [ | eexists; reflexivity ].
    destruct (name p =? "refresh"); eexists; reflexivity.
  - unfold terminate_server. cbn [check_mode self_params simulated].
    destruct (name p =? EmptyString); eexists; reflexivity.
  - unfold get_status_install. cbn [check_mode self_params simulated].
    destruct (name p =? EmptyString); eexists; reflexivity.
  - unfold change_monitoring. cbn [check_mode self_params simulated].
    destruct (name p =? EmptyString); [ eexists; reflexivity | ].
    destruct (state p =? EmptyString); [ eexists; reflexivity | ].
    destruct ((state p =? "present") || (state p =? "absent")); eexists; reflexivity.
  - unfold change_boot_dedicated. cbn [check_mode self_params simulated].
    eexists; reflexivity.
  - unfold generate_template. cbn [check_mode self_params simulated].
    destruct (truthy_str (template p)); eexists; reflexivity.
  - unfold change_vrack. cbn [check_mode self_params simulated].
    destruct (truthy_str (vrack p)); cbn [negb]; cbv iota; [ | eexists; reflexivity ].
    destruct ((state p =? "present") || (state p =? "absent")); eexists; reflexivity.
Qed.

(** X10.  The simulation of the DNS, boot and vrack kinds reports a change
    even when there is none to make: from a remote state that already is the
    desired one, the simulated run still ends with [changed=True]. *)
Theorem simulation_reports_change_when_settled (p : params) (w : W) :
  already_desired gw p w ->
  service p <> "reverse" ->
  reports_change (run gw yaml_load literal_eval (simulated p) w).
Proof.
  intros [ existing ind rest record w1 w2 Hs Hdom Hname Hstate Hip Hget Hiter Hrec Hcur
         | existing w1 Hs Hdom Hname Hstate Hget Hfalsy
         | result reverse w1 Hs Hdom Hip Hget Hitem Heq
         | check wanted current w1 Hs Hforce Hget Hwanted Hitem Heq
         | result n registered l entry w1 w2 Hs Hvr Hstate Hget Hlen Hget2 Hiter Hfind
         | result registered l w1 w2 Hs Hvr Hstate Hget Hlen Hget2 Hiter Hin
         | result_new result_old new_l old_l w1 w2 Hs Hvr Hstate Hget1 Hget2 Hn Hfind Ho Hin ]
         Hnot;
    try contradiction;
    unfold run; cbn [check_mode self_params simulated]; rewrite Hs;
    cbn [String.eqb Ascii.eqb Bool.eqb]; cbv iota.
  - unfold change_dns. cbn [check_mode self_params simulated].
    apply String.eqb_neq in Hname. rewrite Hdom, Hname. eexists; reflexivity.
  - unfold change_dns. cbn [check_mode self_params simulated].
    apply String.eqb_neq in Hname. rewrite Hdom, Hname. eexists; reflexivity.
  - unfold change_boot_dedicated. eexists; reflexivity.
  - unfold change_vrack. cbn [check_mode self_params simulated].
    rewrite Hvr, Hstate. eexists; reflexivity.
  - unfold change_vrack. cbn [check_mode self_params simulated].
    rewrite Hvr, Hstate. eexists; reflexivity.
  - unfold change_vrack. cbn [check_mode self_params simulated].
    rewrite Hvr, Hstate. eexists; reflexivity.
Qed.

Lemma templates_each_filter names acc :
  templates_each (map VStr names) acc =
  Ok (acc ++ map VStr (filter (fun n => negb (substring_of "tmp-mgr" n)) names))%list.
Proof.
  revert acc. induction names as [|n names IH]; intro acc.
  - cbn. rewrite app_nil_r. reflexivity.
  - cbn [map templates_each py_contains rbind filter].
    destruct (substring_of "tmp-mgr" n); cbn [negb].
    + apply IH.
    + rewrite IH. rewrite <- app_assoc. reflexivity.
Qed.

(** X11.  List service for templates, in either mode: the listing is the
    account's template names without those that contain "tmp-mgr", in the
    order of the answer, reported with [changed=False] after the one [get]. *)
Theorem list_templates_hides_temporary (self : OVHModule) (w w1 : W) names :
  name (self_params self) = "templates" ->
  gw GET "/me/installationTemplate" [] w = (inl (VList (map VStr names)), w1) ->
  list_service gw self w =
  (Ok (succeed VNone false VNone
         (VList (map VStr (filter (fun n => negb (substring_of "tmp-mgr" n)) names)))),
   w1, [Call GET "/me/installationTemplate" []]).
Proof.
  intros Hname Hget. unfold list_service, list_templates. rewrite Hname.
  cbn [String.eqb Ascii.eqb Bool.eqb]. cbv iota.
  rewrite attempt_client, Hget. cbn [py_iter]. rewrite bind_lift_ok.
  rewrite templates_each_filter, bind_lift_ok. reflexivity.
Qed.

Lemma dedicated_each_all (reverse_of : value -> value) servers :
  (forall i w0, In i servers ->
     exists test w',
       gw GET ("/dedicated/server/" ++ py_str i) [] w0 = (inl test, w') /\
       py_getitem test "reverse" = Ok (reverse_of i)) ->
  forall acc w,
  exists w' evs,
    dedicated_each gw servers acc w =
      (Ok (acc ++ map (fun i => VStr (py_str (reverse_of i) ++ "=" ++ py_str i)) servers)%list,
       w', evs) /\
    List.length evs = List.length servers.
Proof.
  induction servers as [|i rest IH]; intros Hall acc w.
  - exists w, []. cbn. rewrite app_nil_r. split; reflexivity.
  - destruct (Hall i w (or_introl eq_refl)) as (test & w1 & Hget & Hrev).
    destruct (IH (fun j w0 Hin => Hall j w0 (or_intror Hin))
                (acc ++ [VStr (py_str (reverse_of i) ++ "=" ++ py_str i)])%list w1)
      as (w' & evs & Hrun & Hlen).
    exists w', (Call GET ("/dedicated/server/" ++ py_str i) [] :: evs).
    split.
    + cbn [dedicated_each]. rewrite bind_client, Hget, Hrev, bind_lift_ok, Hrun.
      cbn [emit app map]. rewrite <- app_assoc. reflexivity.
    + cbn [List.length]. rewrite Hlen. reflexivity.
Qed.

(** X12.  List service for servers, in either mode: when the list of
    servers and every server on it can be fetched, the listing has one
    "reverse=name" entry per server, in the order of the list, after one
    [get] for the list and one per server, and nothing is written. *)
Theorem list_dedicated_names_every_server (self : OVHModule) (w w1 : W) servers
  (reverse_of : value -> value) :
  let x := list_service gw self w in
  name (self_params self) = "dedicated" ->
  gw GET "/dedicated/server" [] w = (inl (VList servers), w1) ->
  (forall i w0, In i servers ->
     exists test w',
       gw GET ("/dedicated/server/" ++ py_str i) [] w0 = (inl test, w') /\
       py_getitem test "reverse" = Ok (reverse_of i)) ->
  result_of x =
    Ok (succeed VNone false VNone
          (VList (map (fun i => VStr (py_str (reverse_of i) ++ "=" ++ py_str i)) servers))) /\
  List.length (events_of x) = S (List.length servers) /\
  read_only (events_of x).
Proof.
  intros x Hname Hget Hall. subst x.
  split; [ | split; [ | apply quiet_list_service ] ];
    unfold list_service, list_dedicated; rewrite Hname;
    cbn [String.eqb Ascii.eqb Bool.eqb]; cbv iota;
    rewrite attempt_client, Hget, guarded_run; cbn [py_iter];
    rewrite bind_lift_ok, bind_run;
    destruct (dedicated_each_all reverse_of servers Hall [] w1) as (w' & evs & -> & Hlen).
  - reflexivity.
  - cbn. rewrite app_nil_r. rewrite Hlen. reflexivity.
Qed.

(** X13.  Install kind: the installation is started only in applied mode,
    only for a template that the server lists among its compatible
    templates, and, when an SSH key is named, only if the account has that
    key. *)
Theorem install_starts_only_when_compatible (self : OVHModule) (w : W) :
  let p := self_params self in
  existsb mutating (events_of (launch_install gw self w)) = true ->
  check_mode self = false /\
  exists d names w1,
    gw GET ("/dedicated/server/" ++ name p ++ "/install/compatibleTemplates") [] w =
      (inl (VDict d), w1) /\
    (do l <- template_names d (map fst d); py_set l) = Ok names /\
    existsb (fun x => py_eq_str x (fmt (template p))) names = true /\
    (truthy_str (ssh_key_name p) = true ->
     exists keys w2,
       gw GET "/me/sshKey" [] w1 = (inl keys, w2) /\
       py_contains keys (fmt (ssh_key_name p)) = Ok true).
Proof.
  intros p. subst p. unfold launch_install.
  destruct (name (self_params self) =? EmptyString); [ discriminate | ].
  destruct (truthy_str (template (self_params self))); cbn [negb]; cbv iota;
    [ | discriminate ].
  destruct (truthy_str (hostname (self_params self))); cbn [negb]; cbv iota;
    [ | discriminate ].
  rewrite attempt_run, bind_client.
  destruct (gw GET _ [] w) as [[compatible_templates|err] w1] eqn:Hget; [ | discriminate ].
  destruct compatible_templates as [| | | | |d];
    cbn [py_keys]; try (rewrite bind_lift_raise; discriminate).
  rewrite bind_lift_ok.
  destruct (do l <- template_names d (map fst d); py_set l) as [names|e] eqn:Hnames;
    [ | rewrite bind_lift_raise; destruct e; discriminate ].
  rewrite bind_lift_ok. cbn [ret emit app].
  destruct (existsb _ names) eqn:Hin; cbn [negb]; cbv iota; [ | discriminate ].
  destruct (check_mode self); [ discriminate | ].
  intro Hwrite. split; [ reflexivity | ].
  exists d, names, w1. repeat split; try assumption.
  intro Hkey. rewrite Hkey in Hwrite.
  rewrite events_of_emit, attempt_run, bind_client in Hwrite.
  destruct (gw GET "/me/sshKey" [] w1) as [[keys|err] w2] eqn:Hkeys; [ | discriminate ].
  destruct (py_contains keys _) as [[|]|e] eqn:Hknown.
  - exists keys, w2. split; [ reflexivity | exact Hknown ].
  - discriminate.
  - destruct e; discriminate.
Qed.

(** X14.  Template kind, [state=absent], not simulated: the run is a single
    [delete] keyed by the template's name; nothing is read before it, so a
    template that does not exist is not noticed by the module itself.  It
    reports [changed=True], or the failure the [delete] raised. *)
Theorem template_removal_is_one_delete (p : params) (w : W) conf t :
  let x := generate_template gw yaml_load literal_eval (applied p) w in
  truthy_str (template p) = true ->
  state p = "absent" ->
  yaml_load (fmt (template p)) = Ok (VDict conf) ->
  conf_get conf "templateName" = Ok t ->
  events_of x = [Call DELETE ("/me/installationTemplate/" ++ py_str t) []] /\
  match gw DELETE ("/me/installationTemplate/" ++ py_str t) [] w with
  | (inl _, _) =>
      result_of x = Ok (succeed_msg ("Template " ++ py_str t ++ " succesfully deleted") true)
  | (inr err, _) => result_of x = Ok (api_failure (text err))
  end.
Proof.
  intros x Htemplate Hstate Hyaml Ht. subst x.
  unfold generate_template. cbn [check_mode self_params applied].
  rewrite Htemplate, Hstate, Hyaml.
  cbn [negb String.eqb Ascii.eqb Bool.eqb orb]. cbv iota.
  rewrite !bind_lift_ok, attempt_run, Ht, !bind_lift_ok.
  unfold client.
  destruct (gw DELETE _ [] w) as [[ack|err] w1]; split; reflexivity.
Qed.

Lemma free_ret bad {A} (a : A) : free_of bad (@ret W A a).
Proof. intro w. reflexivity. Qed.

Lemma free_raise bad {A} e : free_of bad (@raise W A e).
Proof. intro w. reflexivity. Qed.

Lemma free_lift bad {A} (r : res A) : free_of bad (@lift W A r).
Proof. intro w. reflexivity. Qed.

Lemma free_sleep bad z : (forall secs, bad (Sleep secs) = false) -> free_of bad (@time_sleep W z).
Proof.
  intros H w. destruct (time_sleep_cases z w) as [[secs ->]|[e ->]]; [ | reflexivity ].
  cbn [events_of snd existsb]. rewrite H. reflexivity.
Qed.

Lemma free_client bad m path kw :
  bad (Call m path kw) = false -> free_of bad (client gw m path kw).
Proof.
  intros H w. unfold events_of. rewrite client_events. cbn. rewrite H. reflexivity.
Qed.

Lemma free_bind bad {A B} (m : M W A) (k : A -> M W B) :
  free_of bad m -> (forall a, free_of bad (k a)) -> free_of bad (bind m k).
Proof.
  intros Hm Hk w. specialize (Hm w). rewrite bind_run.
  destruct (m w) as [[[a|e] w1] e1]; cbn [events_of snd] in Hm.
  - rewrite events_of_emit, existsb_app, Hm. exact (Hk a w1).
  - exact Hm.
Qed.

Lemma free_except bad {A} (body : M W A) (handler : string -> M W A) :
  free_of bad body -> (forall msg, free_of bad (handler msg)) ->
  free_of bad (except_APIError body handler).
Proof.
  intros Hm Hk w. specialize (Hm w). unfold except_APIError.
  destruct (body w) as [[[a|e] w1] e1]; cbn [events_of snd] in Hm; [ exact Hm | ].
  destruct e; try exact Hm.
  rewrite events_of_emit, existsb_app, Hm. exact (Hk msg w1).
Qed.

Lemma free_except_not_found bad {A} (body : M W A) (handler : M W A) :
  free_of bad body -> free_of bad handler ->
  free_of bad (except_ResourceNotFoundError body handler).
Proof.
  intros Hm Hk w. specialize (Hm w). unfold except_ResourceNotFoundError.
  destruct (body w) as [[[a|e] w1] e1]; cbn [events_of snd] in Hm; [ exact Hm | ].
  destruct e; try exact Hm. destruct not_found0; [ | exact Hm ].
  rewrite events_of_emit, existsb_app, Hm. exact (Hk w1).
Qed.

Lemma free_attempt bad {A} (body : M W A) (rest : A -> M W outcome) :
  free_of bad body -> (forall a, free_of bad (rest a)) -> free_of bad (attempt body rest).
Proof.
  intros Hm Hk. unfold attempt. apply free_bind.
  - apply free_except.
    + apply free_bind; [ assumption | intro; apply free_ret ].
    + intro; apply free_ret.
  - intros [a|o]; [ apply Hk | apply free_ret ].
Qed.

Lemma free_guarded bad (body : M W outcome) : free_of bad body -> free_of bad (guarded body).
Proof.
  intro H. unfold guarded. apply free_except; [ assumption | intro; apply free_ret ].
Qed.

Ltac free_step :=
  match goal with
  | |- free_of _ (ret _) => apply free_ret
  | |- free_of _ (raise _) => apply free_raise
  | |- free_of _ (lift _) => apply free_lift
  | |- free_of _ (display _) => intro; reflexivity
  | |- free_of _ (time_sleep _) => apply free_sleep; intro; reflexivity
  | |- free_of _ (client _ _ _ _) => apply free_client; reflexivity
  | |- free_of _ (bind _ _) => apply free_bind; [ | intro ]
  | |- free_of _ (attempt _ _) => apply free_attempt; [ | intro ]
  | |- free_of _ (guarded _) => apply free_guarded
  | |- free_of _ (except_APIError _ _) => apply free_except; [ | intro ]
  | |- free_of _ (except_ResourceNotFoundError _ _) => apply free_except_not_found
  | |- free_of _ (if ?b then _ else _) => destruct b
  | |- free_of _ (match ?x with _ => _ end) => destruct x
  end.

Lemma no_delete_dns_scan dom nm ipaddr ids : free_of is_delete (dns_scan gw dom nm ipaddr ids).
Proof.
  induction ids as [|ind rest IH]; cbn [dns_scan]; repeat free_step. exact IH.
Qed.

Lemma no_delete_status_loop nm retries seconds attempts :
  free_of is_delete (status_loop gw nm retries seconds attempts).
Proof.
  induction attempts as [|i rest IH]; cbn [status_loop]; repeat free_step. exact IH.
Qed.

Lemma no_delete_monitoring_loop nm shouldbe seconds attempts :
  free_of is_delete (monitoring_loop gw nm shouldbe seconds attempts).
Proof.
  induction attempts as [|i rest IH]; cbn [monitoring_loop]; repeat free_step. exact IH.
Qed.

Lemma no_delete_dedicated_each l acc : free_of is_delete (dedicated_each gw l acc).
Proof.
  revert acc. induction l as [|i rest IH]; intro acc; cbn [dedicated_each]; repeat free_step.
  apply IH.
Qed.

Lemma no_delete_partition_each conf l :
  free_of is_delete (partition_each gw literal_eval conf l).
Proof.
  induction l as [|k rest IH]; cbn [partition_each]; repeat free_step. exact IH.
Qed.

Ltac no_delete :=
  repeat (free_step || apply no_delete_dns_scan || apply no_delete_status_loop
          || apply no_delete_monitoring_loop || apply no_delete_dedicated_each
          || apply no_delete_partition_each).

Lemma no_delete_unless_absent self :
  (state (self_params self) =? "absent") = false ->
  free_of is_delete (run gw yaml_load literal_eval self).
Proof.
  intro Habsent. unfold run.
  destruct (service (self_params self) =? "dns").
  { unfold change_dns. rewrite Habsent. no_delete. }
  destruct (service (self_params self) =? "getmac").
  { unfold get_mac. no_delete. }
  destruct (service (self_params self) =? "terminate").
  { unfold terminate_server. no_delete. }
  destruct (service (self_params self) =? "status").
  { unfold get_status_install. no_delete. }
  destruct (service (self_params self) =? "install").
  { unfold launch_install. no_delete. }
  destruct (service (self_params self) =? "monitoring").
  { unfold change_monitoring. no_delete. }
  destruct (service (self_params self) =? "reverse").
  { unfold change_reverse. no_delete. }
  destruct (service (self_params self) =? "list").
  { unfold list_service, list_dedicated, list_templates. no_delete. }
  destruct (service (self_params self) =? "boot").
  { unfold change_boot_dedicated. no_delete. }
  destruct (service (self_params self) =? "template").
  { unfold generate_template, template_hardware_raid, template_partitions.
    rewrite Habsent. no_delete. }
  destruct (service (self_params self) =? "vrack").
  { unfold change_vrack. rewrite Habsent.
    destruct (state (self_params self) =? "present"); cbn [orb negb]; cbv iota; no_delete. }
  apply free_raise.
Qed.

Lemma no_delete_other_services self :
  (service (self_params self) =? "dns") = false ->
  (service (self_params self) =? "template") = false ->
  (service (self_params self) =? "vrack") = false ->
  free_of is_delete (run gw yaml_load literal_eval self).
Proof.
  intros Hdns Htemplate Hvrack. unfold run. rewrite Hdns, Htemplate, Hvrack.
  destruct (service (self_params self) =? "getmac").
  { unfold get_mac. no_delete. }
  destruct (service (self_params self) =? "terminate").
  { unfold terminate_server. no_delete. }
  destruct (service (self_params self) =? "status").
  { unfold get_status_install. no_delete. }
  destruct (service (self_params self) =? "install").
  { unfold launch_install. no_delete. }
  destruct (service (self_params self) =? "monitoring").
  { unfold change_monitoring. no_delete. }
  destruct (service (self_params self) =? "reverse").
  { unfold change_reverse. no_delete. }
  destruct (service (self_params self) =? "list").
  { unfold list_service, list_dedicated, list_templates. no_delete. }
  destruct (service (self_params self) =? "boot").
  { unfold change_boot_dedicated. no_delete. }
  apply free_raise.
Qed.

(** X15.  Nothing is deleted unless asked: in either mode and whatever the
    gateway answers, a run issues a [delete] only for a request with
    [state=absent] to the DNS, template or vrack service.  In particular the
    creation of a template deletes nothing when one of its steps fails: the
    steps made so far are left in place. *)
Theorem deletes_only_when_absent (self : OVHModule) (w : W) :
  existsb is_delete (events_of (run gw yaml_load literal_eval self w)) = true ->
  state (self_params self) = "absent" /\
  In (service (self_params self)) ["dns"; "template"; "vrack"].
Proof.
  intro Hdelete. split.
  - destruct (state (self_params self) =? "absent") eqn:Habsent.
    + apply String.eqb_eq. exact Habsent.
    + rewrite (no_delete_unless_absent self Habsent w) in Hdelete. discriminate.
  - destruct (service (self_params self) =? "dns") eqn:Hdns.
    { left. symmetry. apply String.eqb_eq. exact Hdns. }
    destruct (service (self_params self) =? "template") eqn:Htemplate.
    { right. left. symmetry. apply String.eqb_eq. exact Htemplate. }
    destruct (service (self_params self) =? "vrack") eqn:Hvrack.
    { right. right. left. symmetry. apply String.eqb_eq. exact Hvrack. }
    rewrite (no_delete_other_services self Hdns Htemplate Hvrack w) in Hdelete. discriminate.
Qed.




(** X17.  Vrack kind, [state=absent], not simulated: both membership lists
    are read first.  A server found among the interfaces is removed by one
    [delete] of that interface, and the legacy list is not acted on; a server
    found in the legacy list only is removed by one [delete] of its name
    there.  Either way the run reports [changed=True] with the answer, or
    the failure the [delete] raised. *)
Theorem vrack_absent_removes_one_membership (p : params) (w w1 w2 : W)
  result_new result_old new_l :
  let vr := fmt (vrack p) in
  let reads := [Call GET ("/vrack/" ++ vr ++ "/dedicatedServerInterfaceDetails") [];
                Call GET ("/vrack/" ++ vr ++ "/dedicatedServer") []] in
  let x := change_vrack gw (applied p) w in
  let removed_by path :=
    events_of x = (reads ++ [Call DELETE path []])%list /\
    match gw DELETE path [] w2 with
    | (inl result, _) => result_of x = Ok (succeed VNone true result VNone)
    | (inr err, _) => result_of x = Ok (api_failure (text err))
    end in
  truthy_str (vrack p) = true ->
  state p = "absent" ->
  gw GET ("/vrack/" ++ vr ++ "/dedicatedServerInterfaceDetails") [] w = (inl result_new, w1) ->
  gw GET ("/vrack/" ++ vr ++ "/dedicatedServer") [] w1 = (inl result_old, w2) ->
  py_iter result_new = Ok new_l ->
  (forall entry iface,
     find_interface (name p) new_l = Ok (Some entry) ->
     py_getitem entry "dedicatedServerInterface" = Ok iface ->
     removed_by ("/vrack/" ++ vr ++ "/dedicatedServerInterface/" ++ py_str iface)) /\
  (forall old_l,
     find_interface (name p) new_l = Ok None ->
     py_iter result_old = Ok old_l ->
     existsb (fun old_server => py_eq_str old_server (name p)) old_l = true ->
     removed_by ("/vrack/" ++ vr ++ "/dedicatedServer/" ++ name p)).
Proof.
  intros vr reads x removed_by Hvr Hstate Hget1 Hget2 Hiter.
  assert (Hrun : x = emit reads
                       (bind (lift (find_interface (name p) new_l))
                          (fun found =>
                             match found with
                             | Some new_server =>
                                 guarded
                                   (bind (lift (py_getitem new_server "dedicatedServerInterface"))
                                      (fun iface =>
                                         bind (client gw DELETE
                                                 ("/vrack/" ++ vr ++
                                                  "/dedicatedServerInterface/" ++ py_str iface) [])
                                           (fun result => ret (succeed VNone true result VNone))))
                             | None =>
                                 bind (lift (py_iter result_old))
                                   (fun old_l =>
                                      if existsb (fun old_server => py_eq_str old_server (name p))
                                           old_l
                                      then guarded
                                             (bind (client gw DELETE
                                                      ("/vrack/" ++ vr ++ "/dedicatedServer/" ++
                                                       name p) [])
                                                (fun result =>
                                                   ret (succeed VNone true result VNone)))
                                      else ret (succeed_msg ("No " ++ name p ++ " in " ++ vr)
                                                  false))
                             end) w2)).
  { subst x. unfold change_vrack. cbn [check_mode self_params applied].
    rewrite Hvr, Hstate. cbn [negb String.eqb Ascii.eqb Bool.eqb orb]. cbv iota.
    fold vr.
    rewrite attempt_run, bind_client, Hget1, bind_client, Hget2.
    cbn [emit ret app fst snd]. rewrite Hiter, bind_lift_ok. reflexivity. }
  subst removed_by. cbv beta. rewrite Hrun. split.
  - intros entry iface Hfound Hiface.
    rewrite Hfound, bind_lift_ok, guarded_run, Hiface, bind_lift_ok, bind_client.
    destruct (gw DELETE _ [] w2) as [[result|err] w3]; split; reflexivity.
  - intros old_l Hfound Hold Hin.
    rewrite Hfound, bind_lift_ok, Hold, bind_lift_ok, Hin, guarded_run, bind_client.
    destruct (gw DELETE _ [] w2) as [[result|err] w3]; split; reflexivity.
Qed.




Lemma range1_empty n : (n <= 1)%Z -> range1 n = [].
Proof.
  intro H. unfold range1. replace (Z.to_nat (n - 1)) with 0 by lia. reflexivity.
Qed.

Lemma range1_one n : (2 <= n)%Z -> exists rest, range1 n = 1%Z :: rest.
Proof.
  intro H. unfold range1.
  destruct (Z.to_nat (n - 1)) as [|k] eqn:E; [ lia | ].
  eexists. reflexivity.
Qed.

(** X20.  The polls with [max_retry] of 1 or less make no attempt at all,
    whatever the gateway is: the status poll ends in an [UnboundLocalError],
    as its final message reads the loop variable that no iteration has set,
    and the monitoring poll fails with "Could not change monitoring flag";
    neither issues a gateway call. *)
Theorem polls_without_attempt (p : params) (w : W) :
  (max_retry p <= 1)%Z ->
  name p <> EmptyString ->
  get_status_install gw (applied p) w = (Raise UnboundLocalError, w, []) /\
  (state p = "present" \/ state p = "absent" ->
   change_monitoring gw (applied p) w =
   (Ok (fail "Could not change monitoring flag"), w, [])).
Proof.
  intros Hretry Hname. apply String.eqb_neq in Hname. split.
  - unfold get_status_install. cbn [check_mode self_params applied].
    rewrite Hname, (range1_empty _ Hretry). reflexivity.
  - intro Hstate. unfold change_monitoring. cbn [check_mode self_params applied].
    rewrite Hname, (range1_empty _ Hretry).
    destruct Hstate as [-> | ->]; reflexivity.
Qed.

(** X21.  Status poll, not simulated, with [max_retry] of 2 or more: an
    error of the gateway on the first fetch of the task list ends the poll
    at once in a failure with the error's text, without a sleep or a retry;
    a task list that is empty ends it in the [ValueError] that [max] raises
    on an empty list. *)
Theorem status_poll_first_fetch (p : params) (w : W) :
  let tasks := Call GET ("/dedicated/server/" ++ name p ++ "/task")
                 [("function", VStr "reinstallServer")] in
  let shown := Display ("1 out of " ++ str_of_Z (max_retry p)) in
  let x := get_status_install gw (applied p) w in
  name p <> EmptyString ->
  (2 <= max_retry p)%Z ->
  (forall err w1,
     gw GET ("/dedicated/server/" ++ name p ++ "/task")
       [("function", VStr "reinstallServer")] w = (inr err, w1) ->
     x = (Ok (api_failure (text err)), w1, [shown; tasks])) /\
  (forall w1,
     gw GET ("/dedicated/server/" ++ name p ++ "/task")
       [("function", VStr "reinstallServer")] w = (inl (VList []), w1) ->
     x = (Raise ValueError, w1, [shown; tasks])).
Proof.
  intros tasks shown x Hname Hretry. subst x.
  unfold get_status_install. cbn [check_mode self_params applied].
  apply String.eqb_neq in Hname. rewrite Hname.
  destruct (range1_one _ Hretry) as [rest ->].
  cbn [status_loop].
  split.
  - intros err w1 Hget.
    unfold bind, except_APIError, client, display. rewrite Hget. reflexivity.
  - intros w1 Hget.
    unfold bind, except_APIError, client, display. rewrite Hget. reflexivity.
Qed.

Lemma last_opt_cons {A} (x : A) l :
  last_opt (x :: l) = match last_opt l with Some y => Some y | None => Some x end.
Proof.
  unfold last_opt. cbn [rev].
  destruct (rev l) as [|y r]; reflexivity.
Qed.

Lemma progress_message_last_doing steps message :
  progress_message (map (fun sc => step_report (fst sc) (snd sc)) steps) message =
  Ok (match last_opt (filter (fun sc => fst sc =? "doing") steps) with
      | Some sc => VStr (snd sc)
      | None => message
      end).
Proof.
  revert message. induction steps as [|[s c] steps IH]; intro message.
  - reflexivity.
  - cbn [map progress_message fst snd step_report py_getitem lookup
         String.eqb Ascii.eqb Bool.eqb rbind py_eq_str filter].
    destruct (s =? "doing").
    + rewrite IH, last_opt_cons.
      destruct (last_opt (filter _ steps)); reflexivity.
    + apply IH.
Qed.

(** X22.  Status poll: for a progress report without a message of its own,
    the message the poll shows is the comment of the last step whose status
    is "doing", and empty when no step is being done. *)
Theorem install_message_shows_last_doing_step (steps : list (string * string)) :
  install_message
    (VDict [("progress", VList (map (fun sc => step_report (fst sc) (snd sc)) steps))]) =
  Ok (VStr (match last_opt (filter (fun sc => fst sc =? "doing") steps) with
            | Some sc => snd sc
            | None => EmptyString
            end)).
Proof.
  unfold install_message.
  cbn [py_contains existsb fst String.eqb Ascii.eqb Bool.eqb orb rbind py_getitem lookup
       py_iter].
  rewrite progress_message_last_doing.
  destruct (last_opt (filter _ steps)); reflexivity.
Qed.

Lemma built_fail message : built (fail message).
Proof. left. exists message. reflexivity. Qed.

Lemma built_succeed message changed contents objects :
  built (succeed message changed contents objects).
Proof. right. exists message, changed, contents, objects. reflexivity. Qed.

Lemma yields_ret {A} (P : A -> Prop) a : P a -> yields P (@ret W A a).
Proof. intros H w a' E. injection E as <-. exact H. Qed.

Lemma yields_raise {A} (P : A -> Prop) e : yields P (@raise W A e).
Proof. intros w a E. discriminate. Qed.

Lemma yields_bind {A B} (P : B -> Prop) (m : M W A) (k : A -> M W B) :
  (forall a, yields P (k a)) -> yields P (bind m k).
Proof.
  intros Hk w b. rewrite bind_run.
  destruct (m w) as [[[a|e] w1] e1]; [ | discriminate ].
  rewrite result_of_emit. apply Hk.
Qed.

Lemma yields_bind_with {A B} (Q : A -> Prop) (P : B -> Prop) (m : M W A) (k : A -> M W B) :
  yields Q m -> (forall a, Q a -> yields P (k a)) -> yields P (bind m k).
Proof.
  intros Hm Hk w b. rewrite bind_run. specialize (Hm w).
  destruct (m w) as [[[a|e] w1] e1]; [ | discriminate ].
  rewrite result_of_emit. apply Hk. apply Hm. reflexivity.
Qed.

Lemma yields_except {A} (P : A -> Prop) (body : M W A) (handler : string -> M W A) :
  yields P body -> (forall msg, yields P (handler msg)) -> yields P (except_APIError body handler).
Proof.
  intros Hm Hk w a. unfold except_APIError. specialize (Hm w).
  destruct (body w) as [[[a'|e] w1] e1]; [ exact (Hm a) | ].
  destruct e; try discriminate.
  rewrite result_of_emit. apply Hk.
Qed.

Lemma yields_guarded (body : M W outcome) : yields built body -> yields built (guarded body).
Proof.
  intro H. unfold guarded. apply yields_except; [ exact H | ].
  intro msg. apply yields_ret, built_fail.
Qed.

Lemma yields_attempt {A} (body : M W A) (rest : A -> M W outcome) :
  (forall a, yields built (rest a)) -> yields built (attempt body rest).
Proof.
  intros Hk w o. rewrite attempt_run.
  destruct (body w) as [[[a|e] w1] e1].
  - rewrite result_of_emit. apply Hk.
  - destruct e; try discriminate.
    intro E. injection E as <-. apply built_fail.
Qed.

Ltac yields_step :=
  match goal with
  | |- yields built (ret (fail _)) => apply yields_ret, built_fail
  | |- yields built (ret (api_failure _)) => apply yields_ret, built_fail
  | |- yields built (ret (succeed _ _ _ _)) => apply yields_ret, built_succeed
  | |- yields built (ret (succeed_msg _ _)) => apply yields_ret, built_succeed
  | |- yields built (ret (already_registered _ _)) => apply yields_ret, built_succeed
  | |- yields built_or_none (ret None) => apply yields_ret; intros ? ?; discriminate
  | |- yields built_or_none (ret (Some _)) =>
      apply yields_ret; intros ? E; injection E as <-;
      first [ apply built_fail | apply built_succeed ]
  | |- yields _ (raise _) => apply yields_raise
  | |- yields built (guarded _) => apply yields_guarded
  | |- yields built (attempt _ _) => apply yields_attempt; intro
  | |- yields _ (except_APIError _ _) => apply yields_except; [ | intro ]
  | |- yields _ (if ?b then _ else _) => destruct b
  | |- yields _ (match ?x with _ => _ end) => destruct x
  | |- yields _ (bind _ _) => apply yields_bind; intro
  end.

Lemma yields_loop_step (step next : M W (option outcome)) :
  yields built_or_none step ->
  yields built_or_none next ->
  yields built_or_none
    (bind step (fun r => match r with Some o => ret (Some o) | None => next end)).
Proof.
  intros Hstep Hnext. apply (yields_bind_with built_or_none); [ exact Hstep | ].
  intros [o|] Hr; [ apply yields_ret; intros o' E; injection E as <-; apply Hr; reflexivity
                  | exact Hnext ].
Qed.

Lemma yields_dns_scan dom nm ipaddr ids : yields built_or_none (dns_scan gw dom nm ipaddr ids).
Proof.
  induction ids as [|ind rest IH]; cbn [dns_scan].
  - repeat yields_step.
  - apply yields_loop_step; [ repeat yields_step | exact IH ].
Qed.

Lemma yields_status_loop nm retries seconds attempts :
  yields built_or_none (status_loop gw nm retries seconds attempts).
Proof.
  induction attempts as [|i rest IH]; cbn [status_loop].
  - repeat yields_step.
  - apply yields_bind. intros _.
    apply (yields_bind_with (fun r : value + outcome => forall o, r = inr o -> built o)).
    + apply yields_except.
      * repeat (apply yields_bind; intro). apply yields_ret. intros o E. discriminate.
      * intro msg. apply yields_ret. intros o E. injection E as <-. apply built_fail.
    + intros [result|o] Hr.
      * repeat yields_step. exact IH.
      * apply yields_ret. intros o' E. injection E as <-. apply Hr. reflexivity.
Qed.

Lemma yields_monitoring_loop nm shouldbe seconds attempts :
  yields built_or_none (monitoring_loop gw nm shouldbe seconds attempts).
Proof.
  induction attempts as [|i rest IH]; cbn [monitoring_loop].
  - repeat yields_step.
  - apply yields_bind. intro server_state. apply yields_bind. intro flag.
    destruct (py_eq_bool flag shouldbe); [ repeat yields_step | ].
    apply yields_loop_step; [ repeat yields_step | ].
    apply yields_bind. intros _. exact IH.
Qed.

Lemma yields_partition_each conf l :
  yields built_or_none (partition_each gw literal_eval conf l).
Proof.
  induction l as [|k rest IH]; cbn [partition_each].
  - repeat yields_step.
  - apply yields_bind. intro partition.
    apply yields_loop_step; [ repeat yields_step | exact IH ].
Qed.

Lemma yields_after_loop (loop : M W (option outcome)) (rest : M W outcome) :
  yields built_or_none loop ->
  yields built rest ->
  yields built (bind loop (fun r => match r with Some o => ret o | None => rest end)).
Proof.
  intros Hloop Hrest. apply (yields_bind_with built_or_none); [ exact Hloop | ].
  intros [o|] Hr; [ apply yields_ret, Hr; reflexivity | exact Hrest ].
Qed.

Ltac yields_built :=
  repeat (first [ apply yields_after_loop;
                  [ first [ apply yields_dns_scan | apply yields_status_loop
                          | apply yields_monitoring_loop | apply yields_partition_each ] | ]
                | yields_step ]).

Lemma run_yields_built self : yields built (run gw yaml_load literal_eval self).
Proof.
  unfold run.
  destruct (service (self_params self) =? "dns").
  { unfold change_dns. yields_built. }
  destruct (service (self_params self) =? "getmac").
  { unfold get_mac. yields_built. }
  destruct (service (self_params self) =? "terminate").
  { unfold terminate_server. yields_built. }
  destruct (service (self_params self) =? "status").
  { unfold get_status_install. yields_built. }
  destruct (service (self_params self) =? "install").
  { unfold launch_install. yields_built. }
  destruct (service (self_params self) =? "monitoring").
  { unfold change_monitoring. yields_built. }
  destruct (service (self_params self) =? "reverse").
  { unfold change_reverse. yields_built. }
  destruct (service (self_params self) =? "list").
  { unfold list_service, list_dedicated, list_templates. yields_built. }
  destruct (service (self_params self) =? "boot").
  { unfold change_boot_dedicated. yields_built. }
  destruct (service (self_params self) =? "template").
  { unfold generate_template, template_hardware_raid, template_partitions. yields_built. }
  destruct (service (self_params self) =? "vrack").
  { unfold change_vrack. yields_built. }
  apply yields_raise.
Qed.

(** X23.  Whatever the service, the mode and the gateway, the triple that a
    run returns is accepted by [main]: a failure carries [changed=False] and
    an empty result, so that [fail_json] gets the message alone; a success
    carries a result whose only keys are [msg], [contents] and [objects], so
    that [changed] is never given twice to [exit_json]. *)
Theorem main_accepts_every_outcome (self : OVHModule) (w : W) (o : outcome) :
  result_of (run gw yaml_load literal_eval self w) = Ok o ->
  match error_of o with
  | Some error => changed_of o = false /\ main o = Ok (fail_json [("msg", VStr error)])
  | None => exists result, main o = Ok (exit_json (("changed", VBool (changed_of o)) :: result))
  end.
Proof.
  intro Hrun. destruct (run_yields_built self w o Hrun)
    as [[message ->] | (message & changed & contents & objects & ->)].
  - split; reflexivity.
  - destruct message, contents, objects; eexists; reflexivity.
Qed.

(** X24.  The status, getmac and list services only read: in either mode and
    whatever the gateway answers, they issue no [post], [put] or [delete]. *)
Theorem reading_services_never_write (self : OVHModule) (w : W) :
  In (service (self_params self)) ["status"; "getmac"; "list"] ->
  read_only (events_of (run gw yaml_load literal_eval self w)).
Proof.
  intros [H|[H|[H|[]]]]; unfold run; rewrite <- H;
    cbn [String.eqb Ascii.eqb Bool.eqb]; cbv iota.
  - apply quiet_get_status_install.
  - apply quiet_get_mac.
  - apply quiet_list_service.
Qed.




(** X26.  DNS kind, not simulated: the name "refresh" is a command, not a
    record.  Whatever the state and the IP of the request, the run is one
    [post] to the zone's refresh and nothing else: no record is looked up,
    written or deleted, and it reports [changed=True] every time the [post]
    is accepted. *)
Theorem dns_refresh_is_one_post (p : params) (w : W) :
  let refresh := "/domain/zone/" ++ fmt (domain p) ++ "/refresh" in
  let x := change_dns gw (applied p) w in
  truthy_str (domain p) = true ->
  name p = "refresh" ->
  events_of x = [Call POST refresh []] /\
  match gw POST refresh [] w with
  | (inl _, _) =>
      result_of x =
      Ok (succeed_msg ("Domain " ++ fmt (domain p) ++ " succesfully refreshed !") true)
  | (inr err, _) => result_of x = Ok (api_failure (text err))
  end.
Proof.
  intros refresh x Hdomain Hname. subst x refresh.
  unfold change_dns. cbn [check_mode self_params applied].
  rewrite Hdomain, Hname. cbn [negb String.eqb Ascii.eqb Bool.eqb]. cbv iota.
  rewrite guarded_run, bind_client.
  destruct (gw POST _ [] w) as [[ack|err] w1]; split; reflexivity.
Qed.

End Properties.

(** ** The properties at concrete requests *)

(** C10 at a request for rescue mode with [force_reboot]: a server that boots
    from disk gets one [put] of [bootId] and no reboot; a server already in
    rescue mode gets the reboot. *)
Lemma boot_reboot_only_when_already_set_witness :
  filter mutating
    (events_of (change_boot_dedicated scripted (applied rescue_request)
                  [inl (VDict [("bootId", VInt 1)]); inl VNone])) =
  [Call PUT "/dedicated/server/sv1" [("bootId", VInt 1122)]] /\
  In (Call POST "/dedicated/server/sv1/reboot" [])
    (events_of (change_boot_dedicated scripted (applied rescue_request)
                  [inl (VDict [("bootId", VInt 1122)]); inl VNone])) /\
  force_reboot rescue_request = true.
Proof.
  split.
  - apply (proj2 (boot_reboot_only_when_already_set _ scripted rescue_request
                    [inl (VDict [("bootId", VInt 1)]); inl VNone])
             (VDict [("bootId", VInt 1)]) [inl VNone] 1122%Z (VInt 1)); reflexivity.
  - assert (Hin : In (Call POST "/dedicated/server/sv1/reboot" [])
                    (events_of (change_boot_dedicated scripted (applied rescue_request)
                                  [inl (VDict [("bootId", VInt 1122)]); inl VNone]))).
    { right. left. reflexivity. }
    split; [ exact Hin | ].
    exact (proj1 (proj2 (proj1 (boot_reboot_only_when_already_set _ scripted rescue_request
                                  [inl (VDict [("bootId", VInt 1122)]); inl VNone])
                           _ _ Hin))).
Defined.

(** C3 at the DNS request on an empty zone: applied for real it posts the
    record, simulated it reports the change without a mutating call. *)
Lemma simulate_issues_no_mutating_call_witness :
  existsb mutating
    (events_of (run (static empty_zone) no_yaml no_eval (applied dns_request) tt)) = true /\
  read_only (events_of (run (static empty_zone) no_yaml no_eval (simulated dns_request) tt)) /\
  reports_change (run (static empty_zone) no_yaml no_eval (simulated dns_request) tt).
Proof.
  split; [ reflexivity | ].
  split.
  - exact (proj1 (simulate_issues_no_mutating_call _ (static empty_zone) no_yaml no_eval
                    dns_request tt)).
  - apply (proj2 (simulate_issues_no_mutating_call _ (static empty_zone) no_yaml no_eval
                    dns_request tt)).
    reflexivity.
Defined.

(** C7 at a server of the old generation that is in the vrack already. *)
Lemma vrack_empty_probe_consults_legacy_list_witness :
  change_vrack (static legacy_vrack) (applied vrack_request) tt =
  (Ok (already_registered "sv1" "pn-1"), tt,
   [Call GET "/dedicated/server/sv1/virtualNetworkInterface" [("mode", VStr "vrack")];
    Call GET "/vrack/pn-1/dedicatedServer" []]).
Proof.
  exact (proj2 (vrack_empty_probe_consults_legacy_list _ (static legacy_vrack) vrack_request
                  tt tt eq_refl eq_refl eq_refl)
           (VList [VStr "sv0"; VStr "sv1"]) [VStr "sv0"; VStr "sv1"] tt eq_refl eq_refl).
Defined.


(** [time.sleep(float(sleep))] at the edges: a negative delay raises before
    any sleep, and a delay of [2^53 + 1] seconds is slept as the double next
    to it, [2^53]. *)
Example time_sleep_edges :
  time_sleep (-1) tt = (Raise ValueError, tt, []) /\
  time_sleep (2 ^ 53 + 1) tt = (Ok tt, tt, [Sleep (2 ^ 53)]) /\
  time_sleep 10 tt = (Ok tt, tt, [Sleep 10]).
Proof. repeat split. Qed.

(** With a negative delay the monitoring poll ends in the [ValueError] of
    [time.sleep], right after its first write. *)
Example monitoring_negative_delay_example :
  change_monitoring flag_server
    (applied (with_delay (-1) (request "monitoring" "sv1" "absent"))) true =
  (Raise ValueError, false,
   [Call GET "/dedicated/server/sv1" [];
    Call PUT "/dedicated/server/sv1" [("monitoring", VBool false)]]).
Proof. reflexivity. Qed.










Lemma installing_server_done_after_one :
  done_after (installing_server 1) "sv1" 2 (VStr "done") 1 0.
Proof.
  apply (done_later _ _ _ _ 0 0 1 (VStr "doing") (VStr "Partitioning disks")).
  - exists (VList [VInt 7]), (VInt 7), (VDict [("status", VStr "doing")]).
    eexists. exists 0, 1. repeat split.
  - apply done_now.
    exists (VList [VInt 7]), (VInt 7), (VDict [("status", VStr "done")]), 1.
    repeat split.
Defined.

(** C4 fails on the code: the gateway answers a call with an [APIError] and
    the error leaves [run] as an exception instead of a failure outcome, for
    [get_mac], for the fetch of the install progress in the status poll, for
    the fetch of the hardware RAID profile and for the fetch of the server in
    the monitoring poll; the guarded fetch of the boot kind shows what the
    other calls do with the same error. *)
Theorem api_error_escapes_unguarded_calls :
  result_of (run (static []) no_yaml no_eval (applied (request "getmac" "sv1" "present")) tt) =
    Raise (APIError false "Internal server error") /\
  result_of (run (static install_without_progress) no_yaml no_eval
               (applied (request "status" "sv1" "present")) tt) =
    Raise (APIError false "Internal server error") /\
  result_of (run scripted raid_yaml no_eval (applied template_request)
               [inl VNone; inl VNone; inl VNone]) =
    Raise (APIError false "Internal server error") /\
  result_of (run (static []) no_yaml no_eval
               (applied (request "monitoring" "sv1" "present")) tt) =
    Raise (APIError false "Internal server error") /\
  result_of (run (static []) no_yaml no_eval (applied (request "boot" "sv1" "present")) tt) =
    Ok (fail "Failed to call OVH API: Internal server error").
Proof. repeat split. Qed.

(** C6 fails on the code: the status is "doing" on the first fetch and "done"
    on the second ([k = 1]) and [max_retry = 2] is greater than [k], yet the
    poll stops after one fetch and fails; with [max_retry = 1] and a status
    that is done at once ([k = 0]) it fetches nothing and ends in an
    [UnboundLocalError]. *)
Theorem status_poll_stops_one_attempt_short :
  let p := with_retries 2 (request "status" "sv1" "present") in
  let x := get_status_install (installing_server 1) (applied p) 0 in
  done_after (installing_server 1) "sv1" 2 (VStr "done") 1 0 /\
  (1 < max_retry p)%Z /\
  status_fetches "sv1" (events_of x) = 1 /\
  result_of x = Ok (fail "Max wait time reached, about 1 x 10 seconds") /\
  get_status_install (installing_server 0)
    (applied (with_retries 1 (request "status" "sv1" "present"))) 0 =
  (Raise UnboundLocalError, 0, []).
Proof.
  split; [ exact installing_server_done_after_one | ].
  repeat split.
Qed.

(** The same install with one more attempt allowed ([max_retry = 3]) is seen
    to be done on the second fetch. *)
Lemma status_poll_succeeds_within_range_example :
  let p := with_retries 3 (request "status" "sv1" "present") in
  let x := get_status_install (installing_server 1) (applied p) 0 in
  result_of x = Ok (succeed_msg "done: " false) /\
  status_fetches "sv1" (events_of x) = 2 /\
  sleeps (events_of x) = [Sleep 10].
Proof.
  apply (status_poll_succeeds_within_range _ (installing_server 1)
           (with_retries 3 (request "status" "sv1" "present")) 10%Z 0 2 (VStr "done") 1).
  - discriminate.
  - reflexivity.
  - cbn. lia.
  - exact installing_server_done_after_one.
  - cbn. lia.
Defined.

(** With two controllers the template run ends in the controller failure,
    and no RAID grouping is posted. *)
Lemma hardware_raid_two_controllers_example :
  result_of (generate_template scripted raid_yaml no_eval (applied template_request)
               [inl VNone; inl VNone; inl VNone; inl two_controllers]) =
    Ok (fail controllers_message) /\
  raid_posts (events_of (generate_template scripted raid_yaml no_eval
                           (applied template_request)
                           [inl VNone; inl VNone; inl VNone; inl two_controllers])) = [].
Proof. split; reflexivity. Qed.

(** C9 fails on the code: the profile has exactly one controller, whose
    disks come in two groups of two, and the RAID grouping that is posted
    holds the two disks of the first group only, not the four disks of the
    controller.  The code reads [result['controllers'][0]['disks'][0]['names']]
    under a comment that says all the disks of the controller are taken. *)
Theorem hardware_raid_first_disk_group_example :
  let profile := raid_profile [["c0:d0"; "c0:d1"]; ["c0:d2"; "c0:d3"]] in
  let x := generate_template scripted raid_yaml no_eval (applied template_request)
             [inl VNone; inl VNone; inl VNone; inl profile; inl VNone; inl VNone] in
  py_getitem profile "controllers" =
    Ok (VList [VDict [("disks",
                       VList [VDict [("names", VList [VStr "c0:d0"; VStr "c0:d1"])];
                              VDict [("names", VList [VStr "c0:d2"; VStr "c0:d3"])]]);
                      ("type", VStr "lsi")]]) /\
  raid_posts (events_of x) =
  [Call POST "/me/installationTemplate/custom-raid/partitionScheme/custom/hardwareRaid"
     [("disks", VList [VStr "c0:d0"; VStr "c0:d1"]); ("mode", VStr "raid1");
      ("name", VStr "custom"); ("step", VInt 1)]].
Proof. repeat split. Qed.

(** ** Further properties at concrete requests *)

(** X1 at the DNS request on an empty zone, whose gateway refuses the
    [post]. *)
Lemma dns_empty_zone_creates_record_witness :
  events_of (change_dns (static empty_zone) (applied dns_request) tt) =
  [Call GET "/domain/zone/example.com/record"
     [("fieldType", VStr "A"); ("subDomain", VStr "internal.bar")];
   Call POST "/domain/zone/example.com/record"
     [("fieldType", VStr "A"); ("subDomain", VStr "internal.bar");
      ("target", VStr "192.0.2.1")]] /\
  result_of (change_dns (static empty_zone) (applied dns_request) tt) =
  Ok (fail "Failed to call OVH API: Internal server error").
Proof.
  apply (dns_empty_zone_creates_record _ (static empty_zone) dns_request tt tt (VList []));
    try reflexivity.
  discriminate.
Defined.

(** X2 at the DNS request on a zone with one record of another target. *)
Lemma dns_single_stale_record_is_updated_witness :
  events_of (change_dns (static zone_with_one_stale_record) (applied dns_request) tt) =
  [Call GET "/domain/zone/example.com/record"
     [("fieldType", VStr "A"); ("subDomain", VStr "internal.bar")];
   Call GET "/domain/zone/example.com/record/1" [];
   Call PUT "/domain/zone/example.com/record/1"
     [("subDomain", VStr "internal.bar"); ("target", VStr "192.0.2.1")]] /\
  exists msg,
    result_of (change_dns (static zone_with_one_stale_record) (applied dns_request) tt) =
    Ok (succeed_msg msg true).
Proof.
  apply (dns_single_stale_record_is_updated _ (static zone_with_one_stale_record) dns_request
           tt tt tt (VInt 1) (a_record 1 "192.0.2.9")); try reflexivity.
  discriminate.
Defined.

(** X3 at the removal of a name with two records of which only the lookup
    and the fetches are answered: the first [delete] is refused and is the
    only mutating call. *)
Lemma dns_absent_deletes_a_prefix_witness :
  exists k,
    filter mutating
      (events_of (change_dns (static zone_with_stale_records) (applied dns_removal) tt)) =
    map (fun ind => Call DELETE (record_path "example.com" ind) [])
      (firstn k [VInt 1; VInt 2]).
Proof.
  apply (dns_absent_deletes_a_prefix _ (static zone_with_stale_records) dns_removal tt tt
           (VList [VInt 1; VInt 2])); try reflexivity.
  discriminate.
Defined.

(** X4 at the removal of a name with two records. *)
Lemma dns_absent_deletes_every_record_witness :
  filter mutating
    (events_of (change_dns (static zone_with_two_records) (applied dns_removal) tt)) =
  [Call DELETE "/domain/zone/example.com/record/1" [];
   Call DELETE "/domain/zone/example.com/record/2" []] /\
  result_of (change_dns (static zone_with_two_records) (applied dns_removal) tt) =
  Ok (succeed_msg
        "internal.bar IN A 192.0.2.9,internal.bar IN A 192.0.2.8 successfuly deleted from domain example.com"
        true).
Proof.
  apply (dns_absent_deletes_every_record _ (static zone_with_two_records) dns_removal tt tt
           (VInt 1) [VInt 2]
           (fun _ => VStr "internal.bar")
           (fun i => match i with VInt 1 => VStr "192.0.2.9" | _ => VStr "192.0.2.8" end));
    try reflexivity.
  - discriminate.
  - intros i [] [<-|[<-|[]]]; eexists; exists tt, VNone, tt; repeat split.
Defined.

(** X5 at the DNS request without an IP. *)
Lemma dns_validation_order_witness :
  events_of (change_dns (static empty_zone) (applied dns_request_without_ip) tt) =
  [Call GET "/domain/zone/example.com/record"
     [("fieldType", VStr "A"); ("subDomain", VStr "internal.bar")]] /\
  exists message,
    result_of (change_dns (static empty_zone) (applied dns_request_without_ip) tt) =
    Ok (fail message).
Proof.
  apply (proj2 (dns_validation_order _ (static empty_zone) dns_request_without_ip tt));
    try reflexivity.
  discriminate.
Defined.

(** X6 at a reverse that was never set. *)
Lemma reverse_not_found_is_unset_witness :
  events_of (change_reverse no_reverse (applied reverse_request) tt) =
  [Call GET "/ip/192.0.2.1/reverse/192.0.2.1" [];
   Call POST "/ip/192.0.2.1/reverse"
     [("ipReverse", VStr "192.0.2.1"); ("reverse", VStr "internal.bar.example.com.")]] /\
  result_of (change_reverse no_reverse (applied reverse_request) tt) =
  Ok (succeed_msg "Reverse 192.0.2.1 to internal.bar.example.com. succesfully set !" true).
Proof.
  apply (reverse_not_found_is_unset _ no_reverse reverse_request tt tt
           {| not_found := true; text := "The requested object (ipReverse) does not exist" |});
    reflexivity.
Defined.

(** X8 at the DNS request on a zone with one record of another target. *)
Lemma one_write_per_run_witness :
  writes (events_of (run (static zone_with_one_stale_record) no_yaml no_eval
                       (applied dns_request) tt)) <= 1.
Proof.
  apply (one_write_per_run _ (static zone_with_one_stale_record) no_yaml no_eval
           (applied dns_request) tt); discriminate.
Defined.

(** X9 at the DNS request, simulated on a zone in which the applied run
    would find two records. *)
Lemma simulation_without_gateway_witness :
  exists o,
    run (static zone_with_stale_records) no_yaml no_eval (simulated dns_request) tt =
    (Ok o, tt, []).
Proof.
  apply (simulation_without_gateway _ (static zone_with_stale_records) no_yaml no_eval
           dns_request tt).
  left. reflexivity.
Defined.

(** X10 at a boot request for the disk on a server that boots from disk
    already. *)
Lemma simulation_reports_change_when_settled_witness :
  reports_change
    (run flag_server no_yaml no_eval (simulated (request "boot" "sv1" "present")) false).
Proof.
  apply (simulation_reports_change_when_settled _ flag_server no_yaml no_eval
           (request "boot" "sv1" "present") false).
  - apply (boot_current flag_server (request "boot" "sv1" "present") false
             (VDict [("bootId", VInt 1); ("monitoring", VBool false)]) 1%Z (VInt 1) false);
      reflexivity.
  - discriminate.
Defined.

(** X11 at an account with two temporary templates among four. *)
Lemma list_templates_hides_temporary_witness :
  list_service (static account_templates) (applied (request "list" "templates" "present")) tt =
  (Ok (succeed VNone false VNone (VList [VStr "custom-raid"; VStr "debian-base"])),
   tt, [Call GET "/me/installationTemplate" []]).
Proof.
  exact (list_templates_hides_temporary _ (static account_templates)
           (applied (request "list" "templates" "present")) tt tt
           ["custom-raid"; "tmp-mgr-12345"; "debian-base"; "old-tmp-mgr"] eq_refl eq_refl).
Defined.

(** X12 at an account with two servers. *)
Lemma list_dedicated_names_every_server_witness :
  result_of (list_service (static account_servers)
               (applied (request "list" "dedicated" "present")) tt) =
  Ok (succeed VNone false VNone
        (VList [VStr "db1.example.com.=ns1.ip-192-0-2.eu";
                VStr "db2.example.com.=ns2.ip-192-0-2.eu"])) /\
  List.length (events_of (list_service (static account_servers)
                            (applied (request "list" "dedicated" "present")) tt)) = 3 /\
  read_only (events_of (list_service (static account_servers)
                          (applied (request "list" "dedicated" "present")) tt)).
Proof.
  apply (list_dedicated_names_every_server _ (static account_servers)
           (applied (request "list" "dedicated" "present")) tt tt
           [VStr "ns1.ip-192-0-2.eu"; VStr "ns2.ip-192-0-2.eu"]
           (fun i => match i with
                     | VStr "ns1.ip-192-0-2.eu" => VStr "db1.example.com."
                     | _ => VStr "db2.example.com."
                     end)); try reflexivity.
  intros i [] [<-|[<-|[]]]; eexists; exists tt; split; reflexivity.
Defined.

(** X13 at an install request for a compatible template and a known key. *)
Lemma install_starts_only_when_compatible_witness :
  existsb mutating
    (events_of (launch_install (static installable_server) (applied install_request) tt)) =
    true /\
  check_mode (applied install_request) = false.
Proof.
  assert (H : existsb mutating
                (events_of (launch_install (static installable_server)
                              (applied install_request) tt)) = true) by reflexivity.
  split; [ exact H | ].
  exact (proj1 (install_starts_only_when_compatible _ (static installable_server)
                  (applied install_request) tt H)).
Defined.

(** X14 at the removal of the RAID template, refused by the gateway. *)
Lemma template_removal_is_one_delete_witness :
  events_of (generate_template (static []) raid_yaml no_eval (applied template_removal) tt) =
  [Call DELETE "/me/installationTemplate/custom-raid" []] /\
  result_of (generate_template (static []) raid_yaml no_eval (applied template_removal) tt) =
  Ok (fail "Failed to call OVH API: Internal server error").
Proof.
  apply (template_removal_is_one_delete _ (static []) raid_yaml no_eval template_removal tt
           raid_template (VStr "custom-raid")); reflexivity.
Defined.

(** X15 at the removal of a name with two records. *)
Lemma deletes_only_when_absent_witness :
  existsb is_delete
    (events_of (run (static zone_with_two_records) no_yaml no_eval (applied dns_removal) tt)) =
    true /\
  state dns_removal = "absent" /\
  In (service dns_removal) ["dns"; "template"; "vrack"].
Proof.
  assert (H : existsb is_delete
                (events_of (run (static zone_with_two_records) no_yaml no_eval
                              (applied dns_removal) tt)) = true) by reflexivity.
  split; [ exact H | ].
  exact (deletes_only_when_absent _ (static zone_with_two_records) no_yaml no_eval
           (applied dns_removal) tt H).
Defined.



(** X17 at a server that the vrack has by an interface and in the legacy
    list, and at one that it has in the legacy list only. *)
Lemma vrack_absent_removes_one_membership_witness :
  events_of (change_vrack (static vrack_with_interface) (applied vrack_removal) tt) =
  [Call GET "/vrack/pn-1/dedicatedServerInterfaceDetails" [];
   Call GET "/vrack/pn-1/dedicatedServer" [];
   Call DELETE "/vrack/pn-1/dedicatedServerInterface/bbbb" []] /\
  events_of (change_vrack (static vrack_with_legacy_member) (applied vrack_removal) tt) =
  [Call GET "/vrack/pn-1/dedicatedServerInterfaceDetails" [];
   Call GET "/vrack/pn-1/dedicatedServer" [];
   Call DELETE "/vrack/pn-1/dedicatedServer/sv1" []].
Proof.
  split.
  - refine (proj1 (proj1 (vrack_absent_removes_one_membership _ (static vrack_with_interface)
                            vrack_removal tt tt tt _ _ _ eq_refl eq_refl eq_refl eq_refl
                            eq_refl)
                     (VDict [("dedicatedServer", VStr "sv1");
                             ("dedicatedServerInterface", VStr "bbbb")])
                     (VStr "bbbb") eq_refl eq_refl)).
  - refine (proj1 (proj2 (vrack_absent_removes_one_membership _
                            (static vrack_with_legacy_member)
                            vrack_removal tt tt tt _ _ _ eq_refl eq_refl eq_refl eq_refl
                            eq_refl)
                     [VStr "sv0"; VStr "sv1"] eq_refl eq_refl eq_refl)).
Defined.




(** X20 at [max_retry = 1], against a task that is done already. *)
Lemma polls_without_attempt_witness :
  get_status_install (installing_server 0)
    (applied (with_retries 1 (request "status" "sv1" "present"))) 0 =
  (Raise UnboundLocalError, 0, []).
Proof.
  apply (polls_without_attempt _ (installing_server 0)
           (with_retries 1 (request "status" "sv1" "present")) 0).
  - cbn. lia.
  - discriminate.
Defined.

(** X21 at a server without any reinstall task. *)
Lemma status_poll_first_fetch_witness :
  get_status_install (static [(GET, "/dedicated/server/sv1/task", VList [])])
    (applied (request "status" "sv1" "present")) tt =
  (Raise ValueError, tt,
   [Display "1 out of 10";
    Call GET "/dedicated/server/sv1/task" [("function", VStr "reinstallServer")]]).
Proof.
  pose proof (status_poll_first_fetch _
                (static [(GET, "/dedicated/server/sv1/task", VList [])])
                (request "status" "sv1" "present") tt) as H.
  cbv zeta in H. destruct H as [_ H].
  - discriminate.
  - cbn. lia.
  - apply H. reflexivity.
Defined.

(** X23 at the DNS request on a zone with two records that both differ from
    the desired one. *)
Lemma main_accepts_every_outcome_witness :
  main (fail (ambiguity_message "internal.bar" "example.com")) =
  Ok (fail_json [("msg", VStr (ambiguity_message "internal.bar" "example.com"))]).
Proof.
  exact (proj2 (main_accepts_every_outcome _ (static zone_with_stale_records) no_yaml no_eval
                  (applied (dns_request)) tt
                  (fail (ambiguity_message "internal.bar" "example.com")) eq_refl)).
Defined.

(** X24 at the status poll of an install that never ends. *)
Lemma reading_services_never_write_witness :
  read_only (events_of (run (static stuck_install) no_yaml no_eval
                          (applied (request "status" "sv1" "present")) tt)).
Proof.
  apply (reading_services_never_write _ (static stuck_install) no_yaml no_eval
           (applied (request "status" "sv1" "present")) tt).
  left. reflexivity.
Defined.



(** X26 at a request for the name "refresh" with [state=absent]. *)
Lemma dns_refresh_is_one_post_witness :
  events_of (change_dns accepting (applied refresh_request) tt) =
  [Call POST "/domain/zone/example.com/refresh" []] /\
  result_of (change_dns accepting (applied refresh_request) tt) =
  Ok (succeed_msg "Domain example.com succesfully refreshed !" true).
Proof.
  apply (dns_refresh_is_one_post _ accepting refresh_request tt); reflexivity.
Defined.
